(** * ai-news-verifier: the AI Lab Watch scraper (scraper-v8.py and its siblings)

    A shallow embedding of the extraction engine of [src/python/scraper-v8.py]
    (the in-page helpers [get_weight_js] and [extract_scores_js], the rubric
    reader [scrape_subcategory_rubrics], the driver [build_dataset]) and of the
    driver of [src/python/ailabwatch_scraper_patched.py], with the properties
    the specification states about them.

    Conventions.
    - Text is a [string] of code units in the Latin-1 range; character classes
      ([\d], [\s], case folding) are the regular-expression classes of the
      language the pattern is written in, restricted to that range.
    - A rendered document is a tree of [node]s.  What the rendering engine
      computes for an element (its [innerText], [innerHTML], visibility) is
      carried by the element; [textContent] is computed from the tree.
    - An element handle is the [path] of child indices from the root.
    - The web site is a snapshot [site]: a URL either loads a document or the
      navigation fails.  Waiting for a selector and scrolling a heading into
      view, both with their exceptions suppressed, have no effect on a
      settled document and are left out.
    - A Python call returns or raises: besides what the accessor raises, the
      [TypeError] of a call with too many arguments and the [ValueError] of
      [int] on a run of more than 4300 digits are part of the embedding.
    - A run of digits is read as the integer it spells.  That is Python's
      [int] up to its digit limit, and JavaScript's [parseInt] for values
      below 2^53; above, JavaScript rounds to a double, which the embedding
      does not follow.  In scraper-v8.py no number read in the page reaches
      a record. *)

From Stdlib Require Import ZArith Ascii String List Bool Lia.
From stdpp Require Import base option list strings gmap.

Local Open Scope string_scope.
Local Open Scope list_scope.
Set Warnings "-register-all".

(** ** Characters and strings *)

Module Str.

Definition code (c : ascii) : nat := nat_of_ascii c.

Definition in_range (lo hi : nat) (c : ascii) : bool :=
  (lo <=? code c)%nat && (code c <=? hi)%nat.

(** [\d] *)
Definition is_digit (c : ascii) : bool := in_range 48 57 c.

(** [\s] of a JavaScript regular expression, and the set [String.prototype.trim]
    strips: TAB, LF, VT, FF, CR, SPACE, NBSP. *)
Definition is_space_js (c : ascii) : bool :=
  in_range 9 13 c || (code c =? 32)%nat || (code c =? 160)%nat.

(** [\s] of a Python [str] pattern, and the set [str.strip()] strips:
    additionally FS, GS, RS, US and NEL. *)
Definition is_space_py (c : ascii) : bool :=
  is_space_js c || in_range 28 31 c || (code c =? 133)%nat.

(** [toLowerCase] / [lower] on one code unit. *)
Definition to_lower_char (c : ascii) : ascii :=
  if in_range 65 90 c then ascii_of_nat (code c + 32)
  else if in_range 192 222 c && negb (code c =? 215)%nat
       then ascii_of_nat (code c + 32)
       else c.

Fixpoint to_lower (s : string) : string :=
  match s with
  | EmptyString => EmptyString
  | String c r => String (to_lower_char c) (to_lower r)
  end.

(** Case-insensitive comparison of one pattern character with one subject
    character (flag [i] / [re.IGNORECASE]). *)
Definition eq_ci (a b : ascii) : bool :=
  Ascii.eqb (to_lower_char a) (to_lower_char b).

(** [lit] matches at the start of [s]; the result is what follows it. *)
Fixpoint strip_prefix (eqc : ascii -> ascii -> bool) (lit s : string)
  : option string :=
  match lit with
  | EmptyString => Some s
  | String a lit' =>
      match s with
      | EmptyString => None
      | String b s' => if eqc a b then strip_prefix eqc lit' s' else None
      end
  end.

Definition starts_with (lit s : string) : bool :=
  match strip_prefix Ascii.eqb lit s with Some _ => true | None => false end.

(** [hay.includes(needle)], [needle in hay], XPath [contains(hay, needle)]. *)
Fixpoint includes (needle hay : string) : bool :=
  starts_with needle hay ||
  match hay with
  | EmptyString => false
  | String _ r => includes needle r
  end.

(** The longest prefix whose characters satisfy [p], and the rest. *)
Fixpoint span (p : ascii -> bool) (s : string) : string * string :=
  match s with
  | EmptyString => (EmptyString, EmptyString)
  | String c r =>
      if p c then let '(a, b) := span p r in (String c a, b)
      else (EmptyString, s)
  end.

Definition drop_while (p : ascii -> bool) (s : string) : string :=
  snd (span p s).

Fixpoint rev_acc (s acc : string) : string :=
  match s with
  | EmptyString => acc
  | String c r => rev_acc r (String c acc)
  end.

Definition rev (s : string) : string := rev_acc s EmptyString.

(** [s.trim()] (JavaScript) and [s.strip()] (Python), by their space sets. *)
Definition trim (sp : ascii -> bool) (s : string) : string :=
  rev (drop_while sp (rev (drop_while sp s))).

(** [s.split(sep)[0]]: the part of [s] before the first [sep], the whole of
    [s] when [sep] does not occur. *)
Fixpoint before_first (sep : ascii) (s : string) : string :=
  match s with
  | EmptyString => EmptyString
  | String c r =>
      if Ascii.eqb c sep then EmptyString else String c (before_first sep r)
  end.

(** ASCII whitespace of HTML, which separates the tokens of a [class]
    attribute: TAB, LF, FF, CR, SPACE. *)
Definition is_space_html (c : ascii) : bool :=
  in_range 9 10 c || in_range 12 13 c || (code c =? 32)%nat.

(** The tokens of [s] between runs of characters of [sp]. *)
Fixpoint tokens_acc (sp : ascii -> bool) (s cur : string) : list string :=
  match s with
  | EmptyString => match cur with EmptyString => [] | _ => [rev cur] end
  | String c r =>
      if sp c
      then match cur with
           | EmptyString => tokens_acc sp r EmptyString
           | _ => rev cur :: tokens_acc sp r EmptyString
           end
      else tokens_acc sp r (String c cur)
  end.

Definition tokens (sp : ascii -> bool) (s : string) : list string :=
  tokens_acc sp s EmptyString.

(** The value of a run of decimal digits: [parseInt(d, 10)] and [int(d)].
    JavaScript rounds values from 2^53 on to the nearest double; the model
    keeps the mathematical value. *)
Definition digit_value (c : ascii) : Z := Z.of_nat (code c - 48).

Fixpoint digits_value (acc : Z) (s : string) : Z :=
  match s with
  | EmptyString => acc
  | String c r => digits_value (10 * acc + digit_value c) r
  end.

Definition parseInt (d : string) : Z := digits_value 0 d.

End Str.

(** ** The regular expressions of the scraper *)

Module Re.

Import Str.

(** [(\d+)] at the start of [s]: the digits (greedy, at least one) and what
    follows them. *)
Definition digits1 (s : string) : option (string * string) :=
  match span is_digit s with
  | (EmptyString, _) => None
  | (d, r) => Some (d, r)
  end.

(** [\s+] at the start of [s] (greedy): what follows. *)
Definition spaces1 (sp : ascii -> bool) (s : string) : option string :=
  match span sp s with
  | (EmptyString, _) => None
  | (_, r) => Some r
  end.

(** [percentRe = /(\d+)\s*%/] anchored at the start of [s].  Giving back a
    digit or a space never helps the rest of the pattern to match, so the
    greedy choice is the only candidate at a given start. *)
Definition percent_at (s : string) : option Z :=
  '(d, r) ← digits1 s;
  match drop_while is_space_js r with
  | String "%" _ => Some (parseInt d)
  | _ => None
  end.

(** [text.match(percentRe)]: leftmost match, group 1 parsed. *)
Fixpoint search_percent (s : string) : option Z :=
  match percent_at s with
  | Some v => Some v
  | None =>
      match s with
      | EmptyString => None
      | String _ r => search_percent r
      end
  end.

(** [/Weighted\s+(\d+)%\s+of category/i] anchored at the start of [s]. *)
Definition weighted_at (s : string) : option Z :=
  r1 ← strip_prefix eq_ci "Weighted" s;
  r2 ← spaces1 is_space_js r1;
  '(d, r3) ← digits1 r2;
  r4 ← strip_prefix Ascii.eqb "%" r3;
  r5 ← spaces1 is_space_js r4;
  _ ← strip_prefix eq_ci "of category" r5;
  Some (parseInt d).

Fixpoint search_weighted (s : string) : option Z :=
  match weighted_at s with
  | Some v => Some v
  | None =>
      match s with
      | EmptyString => None
      | String _ r => search_weighted r
      end
  end.

(** The tail [(\d+)\s*%\s*weight] of the overview pattern (Python,
    [re.IGNORECASE]) anchored at the start of [s]. *)
Definition weight_tail_at (s : string) : option Z :=
  '(d, r1) ← digits1 s;
  r2 ← strip_prefix Ascii.eqb "%" (drop_while is_space_py r1);
  _ ← strip_prefix eq_ci "weight" (drop_while is_space_py r2);
  Some (parseInt d).

(** [.{0,n}?] followed by the tail ([re.DOTALL]: any character): the lazy
    quantifier tries the shortest skip first. *)
Fixpoint lazy_window (n : nat) (s : string) : option Z :=
  match weight_tail_at s with
  | Some v => Some v
  | None =>
      match n, s with
      | S n', String _ r => lazy_window n' r
      | _, _ => None
      end
  end.

(** [re.escape(title) + r".{0,300}?(\d+)\s*%\s*weight"] anchored at the
    start of [s]. *)
Definition category_weight_at (title s : string) : option Z :=
  r ← strip_prefix eq_ci title s;
  lazy_window 300 r.

(** [re.search(pattern, body_text, flags=re.IGNORECASE | re.DOTALL)]. *)
Fixpoint search_category_weight (title s : string) : option Z :=
  match category_weight_at title s with
  | Some v => Some v
  | None =>
      match s with
      | EmptyString => None
      | String _ r => search_category_weight title r
      end
  end.

(** The overview pattern once more, giving group 1 as it is matched: the
    Python caller converts it with [int], which can raise. *)
Definition weight_tail_digits (s : string) : option string :=
  '(d, r1) ← digits1 s;
  r2 ← strip_prefix Ascii.eqb "%" (drop_while is_space_py r1);
  _ ← strip_prefix eq_ci "weight" (drop_while is_space_py r2);
  Some d.

Fixpoint lazy_window_digits (n : nat) (s : string) : option string :=
  match weight_tail_digits s with
  | Some d => Some d
  | None =>
      match n, s with
      | S n', String _ r => lazy_window_digits n' r
      | _, _ => None
      end
  end.

Definition category_digits_at (title s : string) : option string :=
  r ← strip_prefix eq_ci title s;
  lazy_window_digits 300 r.

(** [m = re.search(...)], then [m.group(1)]. *)
Fixpoint search_category_digits (title s : string) : option string :=
  match category_digits_at title s with
  | Some d => Some d
  | None =>
      match s with
      | EmptyString => None
      | String _ r => search_category_digits title r
      end
  end.

End Re.

(** ** The rendered document *)

Module Dom.

Import Str.

(** What the accessor can read off an element. *)
Record attrs := Attrs {
  tagName : string;          (* upper case for HTML elements: "H2", "A" *)
  className : string;
  href : option string;
  innerText : string;
  innerHTML : string;
  visible : bool
}.

Inductive node :=
| Text (data : string)
| Elem (a : attrs) (childNodes : list node).

(** An element handle: child indices from the root. *)
Definition path := list nat.

Definition is_element (n : node) : bool :=
  match n with Elem _ _ => true | Text _ => false end.

Definition has_tag (t : string) (n : node) : bool :=
  match n with Elem a _ => String.eqb (tagName a) t | Text _ => false end.

Definition class_of (n : node) : string :=
  match n with Elem a _ => className a | Text _ => EmptyString end.

Definition inner_text (n : node) : string :=
  match n with Elem a _ => innerText a | Text _ => EmptyString end.

Definition inner_html (n : node) : string :=
  match n with Elem a _ => innerHTML a | Text _ => EmptyString end.

Definition is_visible (n : node) : bool :=
  match n with Elem a _ => visible a | Text _ => false end.

(** [el.textContent]: the text nodes below [el], concatenated in order. *)
Fixpoint textContent (n : node) : string :=
  match n with
  | Text d => d
  | Elem _ kids =>
      (fix cat (l : list node) : string :=
         match l with
         | [] => EmptyString
         | k :: r => textContent k +:+ cat r
         end) kids
  end.

Fixpoint get (n : node) (p : path) : option node :=
  match p with
  | [] => Some n
  | i :: q =>
      match n with
      | Text _ => None
      | Elem _ kids => k ← kids !! i; get k q
      end
  end.

(** The elements of the subtree of [n] in document order, [n] first, each
    with its handle; [pre] is the handle of [n]. *)
Fixpoint elements_from (pre : path) (n : node) : list (path * node) :=
  match n with
  | Text _ => []
  | Elem _ kids =>
      (pre, n) ::
      (fix go (i : nat) (l : list node) : list (path * node) :=
         match l with
         | [] => []
         | k :: r => elements_from (pre ++ [i]) k ++ go (S i) r
         end) 0%nat kids
  end.

Definition elements (root : node) : list (path * node) :=
  elements_from [] root.

(** [root.querySelectorAll(sel)]: the proper descendants that match. *)
Definition querySelectorAll (sel : node -> bool) (root : node)
  : list (path * node) :=
  filter (fun pn => sel pn.2 = true) (tail (elements root)).

(** [el.parentElement] *)
Definition parentElement (p : path) : option path :=
  match p with
  | [] => None
  | _ => Some (removelast p)
  end.

(** The element children among [l], the first of which has index [i] under
    the parent [q]. *)
Fixpoint element_siblings_from (q : path) (i : nat) (l : list node)
  : list (path * node) :=
  match l with
  | [] => []
  | Text _ :: r => element_siblings_from q (S i) r
  | (Elem _ _ as n) :: r => (q ++ [i], n) :: element_siblings_from q (S i) r
  end.

(** The chain [el.nextElementSibling], [.nextElementSibling], ... *)
Definition next_element_siblings (root : node) (p : path)
  : list (path * node) :=
  match parentElement p, last p with
  | Some q, Some i =>
      match get root q with
      | Some (Elem _ kids) => element_siblings_from q (S i) (drop (S i) kids)
      | _ => []
      end
  | _, _ => []
  end.

Definition nextElementSibling (root : node) (p : path) : option path :=
  fst <$> head (next_element_siblings root p).

End Dom.

(** ** Compiled-in configuration (scraper-v8.py, lines 25-46) *)

Definition BASE : string := "https://ailabwatch.org/".

Definition CATEGORIES : list (string * string) :=
  [ ("risk-assessment", "Risk assessment");
    ("scheming", "Scheming risk prevention");
    ("safety-research", "Boosting safety research");
    ("misuse", "Misuse prevention");
    ("security", "Prep for extreme security");
    ("information-sharing", "Risk info sharing");
    ("planning", "Planning") ].

Definition COMPANIES : list string :=
  ["Anthropic"; "DeepMind"; "OpenAI"; "Meta"; "xAI"; "Microsoft"; "DeepSeek"].

(** A dict in insertion order, as [Object.keys] enumerates it in the page. *)
Definition COMPANY_SLUG : list (string * string) :=
  [ ("Anthropic", "anthropic");
    ("DeepMind", "deepmind");
    ("OpenAI", "openai");
    ("Meta", "meta");
    ("xAI", "xai");
    ("Microsoft", "microsoft");
    ("DeepSeek", "deepseek") ].

(** [urljoin(BASE, rel)] for a relative reference without scheme, leading
    slash or dot segments, which is what every call site passes. *)
Definition urljoin (base rel : string) : string := base +:+ rel.

(** ** The in-page helpers of [parse_category_page] *)

Module CategoryPage.

Import Str Dom.

(** *** Region slicer (extract_scores_js, step 1)
<<
      const regionNodes = [];
      let n = h2.nextElementSibling;
      while (n && n.tagName !== 'H2') { regionNodes.push(n); n = n.nextElementSibling; }
>> *)
Fixpoint take_until_h2 (chain : list (path * node)) : list node :=
  match chain with
  | [] => []
  | (_, n) :: r => if has_tag "H2" n then [] else n :: take_until_h2 r
  end.

Definition regionNodes (root : node) (h2 : path) : list node :=
  take_until_h2 (next_element_siblings root h2).

(** [document.createElement('div')] with a deep clone of every region node
    appended: a detached element without class, link or parent. *)
Definition detached_div (kids : list node) : node :=
  Elem (Attrs "DIV" EmptyString None EmptyString EmptyString false) kids.

Definition region_of (root : node) (h2 : path) : node :=
  detached_div (regionNodes root h2).

(** *** Weight parser (get_weight_js)
<<
      let n = h2.nextElementSibling;
      for (let i=0; i<8 && n; i++, n = n.nextElementSibling) {
        const t = (n.innerText || '').trim();
        const m = t.match(/Weighted\s+(\d+)%\s+of category/i);
        if (m) return parseInt(m[1], 10);
      }
      return null;
>> *)
Fixpoint weight_scan (budget : nat) (chain : list (path * node)) : option Z :=
  match budget, chain with
  | S b, (_, n) :: r =>
      match Re.search_weighted (trim is_space_js (inner_text n)) with
      | Some w => Some w
      | None => weight_scan b r
      end
  | _, _ => None
  end.

Definition get_weight_js (root : node) (h2 : path) : option Z :=
  weight_scan 8 (next_element_siblings root h2).

(** *** Score extractor (extract_scores_js, steps 2-4) *)

(** [a[href*="/cell/${cslug}/${categorySlug}"]] *)
Definition anchor_selector (cslug categorySlug : string) (n : node) : bool :=
  match n with
  | Elem a _ =>
      String.eqb (tagName a) "A" &&
      match href a with
      | Some h => includes ("/cell/" +:+ cslug +:+ "/" +:+ categorySlug) h
      | None => false
      end
  | Text _ => false
  end.

(** [isCardish]: the lower-cased class name includes one of five words. *)
Definition isCardish (el : option node) : bool :=
  match el with
  | Some (Elem a _) =>
      let c := to_lower (className a) in
      includes "card" c || includes "grid" c || includes "panel" c ||
      includes "tile" c || includes "item" c
  | _ => false
  end.

(** <<
          let container = a;
          for (let i=0; i<6 && container; i++) {
            if (isCardish(container)) break;
            container = container.parentElement;
          }
>> *)
Fixpoint climb (region : node) (budget : nat) (container : option path)
  : option path :=
  match budget, container with
  | S b, Some p =>
      if isCardish (get region p) then Some p
      else climb region b (parentElement p)
  | _, _ => container
  end.

(** [a.closest('a, div, li, article, section')] *)
Definition closest_selector (n : node) : bool :=
  has_tag "A" n || has_tag "DIV" n || has_tag "LI" n ||
  has_tag "ARTICLE" n || has_tag "SECTION" n.

Fixpoint closest_from (region : node) (budget : nat) (p : path)
  : option path :=
  match budget with
  | O => None
  | S b =>
      match get region p with
      | Some n =>
          if closest_selector n then Some p
          else q ← parentElement p; closest_from region b q
      | None => None
      end
  end.

Definition closest (region : node) (p : path) : option path :=
  closest_from region (S (length p)) p.

(** [if (!container) container = a.closest(...) || a.parentElement || a;] *)
Definition container_of (region : node) (a : path) : path :=
  match climb region 6 (Some a) with
  | Some c => c
  | None =>
      match closest region a with
      | Some c => c
      | None => match parentElement a with Some c => c | None => a end
      end
  end.

(** <<
          const tryNode = (el) => {
            const text = (el && el.textContent) ? el.textContent : '';
            const m = text.match(percentRe);
            return m ? parseInt(m[1], 10) : null;
          };
>> *)
Definition tryNode (el : option node) : option Z :=
  Re.search_percent (match el with Some n => textContent n | None => EmptyString end).

(** <<
          let sib = container.nextElementSibling;
          for (let j=0; j<4 && sib && val == null; j++, sib = sib.nextElementSibling) {
            val = tryNode(sib);
          }
>> *)
Fixpoint sibling_scan (budget : nat) (chain : list (path * node))
  (val : option Z) : option Z :=
  match budget, chain, val with
  | S b, (_, sib) :: r, None => sibling_scan b r (tryNode (Some sib))
  | _, _, _ => val
  end.

(** The three probes made for one anchor, in the order of the code. *)
Definition tier_container (region : node) (a : path) : option Z :=
  tryNode (get region (container_of region a)).

Definition tier_siblings (region : node) (a : path) : option Z :=
  sibling_scan 4 (next_element_siblings region (container_of region a)) None.

Definition tier_anchor (region : node) (a : path) : option Z :=
  tryNode (get region a).

(** The body of [for (const a of anchors)], with [val] carried along and a
    [break] as soon as it is not [null]. *)
Fixpoint anchor_loop (region : node) (anchors : list path) (val : option Z)
  : option Z :=
  match anchors with
  | [] => val
  | a :: rest =>
      let val := tier_container region a in
      if decide (is_Some val) then val else
      let val := sibling_scan 4 (next_element_siblings region (container_of region a)) val in
      if decide (is_Some val) then val else
      let val := tier_anchor region a in
      if decide (is_Some val) then val else
      anchor_loop region rest val
  end.

(** One round of [for (const company of companies)]: [let val = null], the
    anchors of that company in the region, the loop. *)
Definition company_score (region : node) (categorySlug cslug : string)
  : option Z :=
  anchor_loop region
    (fst <$> querySelectorAll (anchor_selector cslug categorySlug) region)
    None.

(** [extract_scores_js(h2, categorySlug, companySlugMap)]: the object
    [scores], one property per key of [companySlugMap], in key order. *)
Definition extract_scores_js (root : node) (h2 : path) (categorySlug : string)
  (companySlugMap : list (string * string)) : list (string * option Z) :=
  let region := region_of root h2 in
  (fun kv => (kv.1, company_score region categorySlug kv.2)) <$> companySlugMap.

(** *** The record of one subcategory

    [{"name": name, "weight": weight, "scores": scores}] *)

Record subcat := Subcat {
  sc_name : string;
  sc_weight : option Z;
  sc_scores : list (string * option Z)
}.

End CategoryPage.

(** ** The rendered-document accessor *)

Module Browser.

Import Str Dom.

(** What a call can raise: Playwright's [TimeoutError] or another of its
    [Error]s, and Python's own [TypeError] and [ValueError]. *)
Inductive exn := PWTimeout | PWError | TypeError | ValueError.

(** [exn + A]: a call returns or raises. *)
#[global] Instance result_ret : MRet (sum exn) := fun _ x => inr x.
#[global] Instance result_bind : MBind (sum exn) := fun _ _ k m =>
  match m with
  | inl e => inl e
  | inr x => k x
  end.

(** What a URL serves: the rendered tree and the page's own reaction to a
    click on an element ([None]: the click raises). *)
Record document := Document {
  doc_dom : node;
  doc_script : path -> node -> option node
}.

(** The site, as it stands during a run. *)
Definition site := string -> exn + document.

(** An open tab: the live tree, the page's script, and the clicks the
    scraper has attempted on it so far (a ghost log). *)
Record page := Page {
  dom : node;
  script : path -> node -> option node;
  clicks : list path
}.

(** [context.new_page()] followed by [page.goto(url)]. *)
Definition goto (w : site) (url : string) : exn + page :=
  d ← w url; mret (Page (doc_dom d) (doc_script d) []).

(** [page.evaluate(expression, arg=None)]: the method takes the expression
    and at most one argument for it.  A call that passes more is rejected by
    Python with [TypeError] when it is made, before anything is evaluated in
    the page.  [passed] is the number of arguments the call site gives after
    the expression, [result] what the expression computes in the page. *)
Definition evaluate {A : Type} (passed : nat) (result : A) : exn + A :=
  if decide (passed <= 1)%nat then inr result else inl TypeError.

(** A locator is a query, answered against the tree as it is when used. *)
Definition locator := node -> list (path * node).

Definition count (l : locator) (root : node) : nat := length (l root).

Definition first (l : locator) : locator := fun root => take 1 (l root).

(** [page.locator(css)] for a bare tag name. *)
Definition by_tag (tag : string) : locator := fun root =>
  filter (fun pn => has_tag tag pn.2 = true) (elements root).

(** The elements after [h] in document order, in the list [l]. *)
Fixpoint after (h : path) (l : list (path * node)) : list (path * node) :=
  match l with
  | [] => []
  | pn :: r => if decide (pn.1 = h) then r else after h r
  end.

(** [h] is [p] or an ancestor of [p]. *)
Definition is_prefix (h p : path) : bool := bool_decide (take (length h) p = h).

(** XPath axis [following::*] from the element [h]: what comes after it in
    document order, its own descendants excluded. *)
Definition following (root : node) (h : path) : list (path * node) :=
  filter (fun pn => is_prefix h pn.1 = false) (after h (elements root)).

(** [l.locator("xpath=following::*[pred][1]")] *)
Definition following_first (pred : node -> bool) (l : locator) : locator :=
  fun root =>
    h ← l root; take 1 (filter (fun pn => pred pn.2 = true) (following root h.1)).

(** [[self::button or self::div or self::span]
     [contains(., 'Click to show details/rubric') or
      contains(., 'Click to hide details/rubric')]] *)
Definition show_label : string := "Click to show details/rubric".
Definition hide_label : string := "Click to hide details/rubric".

Definition is_toggle (n : node) : bool :=
  (has_tag "BUTTON" n || has_tag "DIV" n || has_tag "SPAN" n) &&
  (includes show_label (textContent n) || includes hide_label (textContent n)).

(** [[contains(@class, 'text-sm') and contains(@class, 'links')]] *)
Definition is_rubric (n : node) : bool :=
  is_element n && includes "text-sm" (class_of n) && includes "links" (class_of n).

(** [css=div.text-sm.links] *)
Definition is_rubric_div (n : node) : bool :=
  has_tag "DIV" n &&
  bool_decide ("text-sm" ∈ tokens is_space_html (class_of n)) &&
  bool_decide ("links" ∈ tokens is_space_html (class_of n)).

(** [locator.click(timeout=3000)]: the attempt is logged; the page reacts,
    or the click raises and the page stays as it is. *)
Definition click (pg : page) (t : path) : page * (exn + ()) :=
  let pg' := Page (dom pg) (script pg) (clicks pg ++ [t]) in
  match script pg t (dom pg) with
  | Some d => (Page d (script pg) (clicks pg'), inr ())
  | None => (pg', inl PWTimeout)
  end.

(** Playwright's [has_text] for a string, as documented: a case-insensitive
    substring test on whitespace-normalised text. *)
Fixpoint join_tokens (l : list string) : string :=
  match l with
  | [] => EmptyString
  | [t] => t
  | t :: r => t +:+ " " +:+ join_tokens r
  end.

Definition normalise (s : string) : string :=
  to_lower (join_tokens (tokens is_space_js s)).

Definition has_text_ci (text : string) (n : node) : bool :=
  includes (normalise text) (normalise (textContent n)).

End Browser.

(** ** Python's conversion of digits *)

Module Python.

Import Str Browser.

(** [int(s)] on a run of decimal digits: CPython converts at most
    [sys.int_info.default_max_str_digits] = 4300 digits and raises
    [ValueError] on a longer run. *)
Definition max_str_digits : nat := 4300.

Definition int (d : string) : exn + Z :=
  if decide (String.length d <= max_str_digits)%nat then inr (parseInt d)
  else inl ValueError.

End Python.

(** ** The scraper (scraper-v8.py) *)

Module Scraper.

Import Str Dom Browser CategoryPage.

Record rubric := Rubric {
  description : option string;
  description_html : option string
}.

Definition no_rubric : rubric := Rubric None None.

Record subcategory := Subcategory {
  sub_name : string;
  sub_weight : option Z;
  sub_description : option string;
  sub_description_html : option string;
  sub_scores : list (string * option Z)
}.

Record category := Category {
  cat_category : string;
  cat_weight : option Z;
  cat_subcategories : list subcategory
}.

(** [get_category_weights]: the overview page, the inner text of [body],
    one search per configured category.  Reading a locator that matches
    nothing times out. *)
Definition body_text (root : node) : exn + string :=
  match by_tag "BODY" root with
  | pn :: _ => inr (inner_text pn.2)
  | [] => inl PWTimeout
  end.

(** <<
    for slug, title in CATEGORIES:
        m = re.search(re.escape(title) + r".{0,300}?(\d+)\s*%\s*weight", body_text, ...)
        weights[title] = int(m.group(1)) if m else None
>> *)
Fixpoint weights_loop (body : string) (cats : list (string * string))
  (weights : gmap string (option Z)) : exn + gmap string (option Z) :=
  match cats with
  | [] => inr weights
  | (slug, title) :: rest =>
      v ← match Re.search_category_digits title body with
          | Some d => n ← Python.int d; mret (Some n)
          | None => inr None
          end;
      weights_loop body rest (<[title := v]> weights)
  end.

Definition get_category_weights (w : site) : exn + gmap string (option Z) :=
  pg ← goto w (urljoin BASE "categories");
  body ← body_text (dom pg);
  weights_loop body CATEGORIES ∅.

(** [parse_category_page]: the category page, then the in-page helpers on
    every [h2].
<<
    headers = page.locator("h2"); count = await headers.count()
    for i in range(count):
        header = headers.nth(i)
        name = (await header.inner_text()).strip()
        if not name: continue
        weight = await page.evaluate(get_weight_js, await header.element_handle())
        scores = await page.evaluate(
            extract_scores_js, await header.element_handle(), slug, COMPANY_SLUG)
        subcats.append({"name": name, "weight": weight, "scores": scores})
>>
    The first call of [page.evaluate] passes one argument, the second
    three. *)
Definition parse_header (root : node) (slug : string) (h : path * node)
  : exn + option subcat :=
  let name := trim is_space_py (inner_text h.2) in
  if decide (name = EmptyString) then inr None
  else
    weight ← evaluate 1 (get_weight_js root h.1);
    scores ← evaluate 3 (extract_scores_js root h.1 slug COMPANY_SLUG);
    mret (Some (Subcat name weight scores)).

Fixpoint parse_headers (root : node) (slug : string)
  (headers : list (path * node)) (subcats : list subcat)
  : exn + list subcat :=
  match headers with
  | [] => inr subcats
  | h :: rest =>
      r ← parse_header root slug h;
      parse_headers root slug rest
        (match r with Some sc => subcats ++ [sc] | None => subcats end)
  end.

Definition parse_category_page (w : site) (slug : string) : exn + list subcat :=
  pg ← goto w (urljoin BASE ("categories/" +:+ slug));
  parse_headers (dom pg) slug (by_tag "H2" (dom pg)) [].

Section Accessor.

(** The text filter of [page.locator(tag, has_text=...)], a service of the
    accessor; [Browser.has_text_ci] is the documented one. *)
Variable has_text : string -> node -> bool.

Definition locate (tag text : string) : locator := fun root =>
  filter (fun pn => has_tag tag pn.2 && has_text text pn.2 = true) (elements root).

(** <<
    toggle = header.locator("xpath=following::*[...][...][1]")
    try:
        if await toggle.count():
            await toggle.first.click(timeout=3000)
    except Exception:
        pass  # it may already be expanded
>> *)
Definition click_near_toggle (header : locator) (pg : page) : page :=
  let toggle := following_first is_toggle header in
  if decide (count toggle (dom pg) = 0%nat) then pg
  else
    match first toggle (dom pg) with
    | t :: _ => (click pg t.1).1
    | [] => pg
    end.

(** <<
        header = page.locator("h3", has_text=title)
        if await header.count() == 0:
            header = page.locator("h2", has_text=title)
        if await header.count() == 0:
            prefix = title.split(":")[0].strip()
            header = page.locator("h3", has_text=prefix)
>> *)
Definition colon_prefix (title : string) : string :=
  trim is_space_py (before_first ":" title).

Definition resolve_header (root : node) (title : string) : locator :=
  let header := locate "H3" title in
  let header :=
    if decide (count header root = 0%nat) then locate "H2" title else header in
  let header :=
    if decide (count header root = 0%nat)
    then locate "H3" (colon_prefix title) else header in
  header.

(** [rubric_div.wait_for(state="visible", timeout=5000)] and the two reads;
    a locator that matches nothing visible times out. *)
Definition read_visible (l : locator) (root : node) : exn + rubric :=
  match l root with
  | pn :: _ =>
      if is_visible pn.2
      then inr (Rubric (Some (inner_text pn.2)) (Some (inner_html pn.2)))
      else inl PWTimeout
  | [] => inl PWTimeout
  end.

(** <<
            global_div = page.locator("css=div.text-sm.links").first
            if await global_div.count(): ... read ...
            else: rubrics[title] = {"description": None, "description_html": None}
>> *)
Definition global_fallback (root : node) : rubric :=
  let global_div := first (fun r => filter (fun pn => is_rubric_div pn.2 = true) (elements r)) in
  match global_div root with
  | pn :: _ => Rubric (Some (inner_text pn.2)) (Some (inner_html pn.2))
  | [] => no_rubric
  end.

(** What follows heading resolution for one subcategory: the click, the
    wait, the reads, the fallback. *)
Definition read_rubric (h : locator) (pg : page) : rubric :=
  let rubric_div := following_first is_rubric h in
  match read_visible rubric_div (dom pg) with
  | inr r => r
  | inl _ => global_fallback (dom pg)
  end.

(** One round of [for sc in subcats]: the value stored under [title] and the
    page as the round leaves it. *)
Definition scrape_one (pg : page) (title : string) : rubric * page :=
  let header := resolve_header (dom pg) title in
  if decide (count header (dom pg) = 0%nat) then (no_rubric, pg)
  else
    let h := first header in
    let pg := click_near_toggle h pg in
    (read_rubric h pg, pg).

Fixpoint scrape_loop (pg : page) (subcats : list subcat)
  (rubrics : gmap string rubric) : gmap string rubric * page :=
  match subcats with
  | [] => (rubrics, pg)
  | sc :: rest =>
      let title := sc_name sc in
      let '(r, pg) := scrape_one pg title in
      scrape_loop pg rest (<[title := r]> rubrics)
  end.

(** [scrape_subcategory_rubrics(page, slug, subcats)] *)
Definition scrape_subcategory_rubrics (w : site) (slug : string)
  (subcats : list subcat) : exn + gmap string rubric :=
  pg ← goto w (urljoin BASE ("cell/xai/" +:+ slug));
  mret (scrape_loop pg subcats ∅).1.

(** The record appended for one category (build_dataset, lines 270-289). *)
Definition assemble (title : string) (cat_weights : gmap string (option Z))
  (subcats : list subcat) (rubrics : gmap string rubric) : category :=
  Category title (mjoin (cat_weights !! title))
    ((fun sc =>
        Subcategory (sc_name sc) (sc_weight sc)
          (r ← rubrics !! sc_name sc; description r)
          (r ← rubrics !! sc_name sc; description_html r)
          (sc_scores sc)) <$> subcats).

(** [for slug, title in CATEGORIES:] with [out] carried along; an exception
    raised by either page visit leaves the loop and the function. *)
Fixpoint build_loop (w : site) (cat_weights : gmap string (option Z))
  (cats : list (string * string)) (out : list category)
  : exn + list category :=
  match cats with
  | [] => inr out
  | (slug, title) :: rest =>
      subcats ← parse_category_page w slug;
      rubrics ← scrape_subcategory_rubrics w slug subcats;
      build_loop w cat_weights rest
        (out ++ [assemble title cat_weights subcats rubrics])
  end.

Definition build_dataset (w : site) : exn + list category :=
  cat_weights ← get_category_weights w;
  build_loop w cat_weights CATEGORIES [].

(** [main]: the file is written only when [build_dataset] returns;
    [json_dump] stands for [json.dump(data, f, indent=2, ensure_ascii=False)]. *)
Definition main {bytes : Type} (json_dump : list category -> bytes)
  (w : site) : exn + bytes :=
  data ← build_dataset w; mret (json_dump data).

End Accessor.

(** The pages a run of [build_dataset] loads. *)
Definition category_url (slug : string) : string :=
  urljoin BASE ("categories/" +:+ slug).

Definition cell_url (slug : string) : string :=
  urljoin BASE ("cell/xai/" +:+ slug).

Definition fetched_urls : list string :=
  urljoin BASE "categories" ::
  ((fun st => category_url st.1) <$> CATEGORIES) ++
  ((fun st => cell_url st.1) <$> CATEGORIES).

End Scraper.

(** ** The driver of ailabwatch_scraper_patched.py (lines 152-165) *)

Module Patched.

Import Browser.

Section Main.

(** [extract_category(context, slug)], whatever it does with the site, and
    the type of the per-subcategory entries it returns. *)
Variable entry : Type.
Variable extract_category : site -> string -> exn + list (string * entry).

(** [out[k] = v] on a dict kept in insertion order. *)
Fixpoint dict_set {V : Type} (k : string) (v : V) (d : list (string * V))
  : list (string * V) :=
  match d with
  | [] => [(k, v)]
  | (k', v') :: r =>
      if decide (k' = k) then (k, v) :: r else (k', v') :: dict_set k v r
  end.

(** <<
        for slug, cat_name in CATEGORIES:
            try:
                out[cat_name] = await extract_category(context, slug)
            except Exception as e:
                out[cat_name] = {}
>> *)
Fixpoint main_loop (w : site) (cats : list (string * string))
  (out : list (string * list (string * entry)))
  : list (string * list (string * entry)) :=
  match cats with
  | [] => out
  | (slug, cat_name) :: rest =>
      match extract_category w slug with
      | inr r => main_loop w rest (dict_set cat_name r out)
      | inl _ => main_loop w rest (dict_set cat_name [] out)
      end
  end.

Definition main (w : site) : list (string * list (string * entry)) :=
  main_loop w CATEGORIES [].

End Main.

End Patched.

(** ** Reference semantics the claims are compared with *)

Module Reference.

Import Str Dom Browser CategoryPage.

(** The first success in a list of attempts. *)
Fixpoint first_some {A : Type} (l : list (option A)) : option A :=
  match l with
  | [] => None
  | Some v :: _ => Some v
  | None :: r => first_some r
  end.

(** [d.get(k)] on a dict kept in insertion order. *)
Fixpoint dict_get {V : Type} (k : string) (d : list (string * V)) : option V :=
  match d with
  | [] => None
  | (k', v) :: r => if decide (k' = k) then Some v else dict_get k r
  end.

(** The weight parser in the words of the specification: a window of
    [budget] elements after the heading, the first match wins, no match is
    the unknown value. *)
Definition weight_in_window (budget : nat) (root : node) (h2 : path)
  : option Z :=
  first_some
    ((fun pn => Re.search_weighted (trim is_space_js (inner_text pn.2)))
       <$> take budget (next_element_siblings root h2)).

(** The label-pair pattern of the earlier scrapers (scraper-v3.py, line 89):
    [Image:\s*<label>\s*\n(\d+)%] anchored at the start of [s].  The last
    space before the digits has to be the line feed. *)
Definition label_pair_at (label s : string) : option Z :=
  r1 ← strip_prefix Ascii.eqb "Image:" s;
  r2 ← strip_prefix Ascii.eqb label (drop_while is_space_py r1);
  let '(ws, r3) := span is_space_py r2 in
  match rev ws with
  | String c _ =>
      if Ascii.eqb c "010" then
        '(d, r4) ← Re.digits1 r3;
        _ ← strip_prefix Ascii.eqb "%" r4;
        Some (parseInt d)
      else None
  | EmptyString => None
  end.

Fixpoint search_label_pair (label s : string) : option Z :=
  match label_pair_at label s with
  | Some v => Some v
  | None =>
      match s with
      | EmptyString => None
      | String _ r => search_label_pair label r
      end
  end.

(** The flattened text of a region: the inner texts of its nodes, one per
    line (scraper-v3.py, lines 76-85). *)
Fixpoint join_lines (l : list string) : string :=
  match l with
  | [] => EmptyString
  | [t] => t
  | t :: r => t +:+ String "010" (join_lines r)
  end.

Definition flattened_text (region : node) : string :=
  match region with
  | Elem _ kids => join_lines (inner_text <$> filter (fun n => is_element n = true) kids)
  | Text _ => EmptyString
  end.

(** The cascade in the order the specification lists it (section 4.3), on
    the first reference that matches: label pair, the reference's own
    content, the container, its siblings, the reference again. *)
Definition spec_order_score (region : node) (categorySlug : string)
  (label cslug : string) : option Z :=
  let anchors := fst <$> querySelectorAll (anchor_selector cslug categorySlug) region in
  first_some
    (search_label_pair label (flattened_text region) ::
     match anchors with
     | a :: _ =>
         [ tier_anchor region a;
           tier_container region a;
           tier_siblings region a;
           tier_anchor region a ]
     | [] => []
     end).

(** The probes of the code for one company, anchor by anchor. *)
Definition code_order_probes (region : node) (categorySlug cslug : string)
  : list (option Z) :=
  a ← fst <$> querySelectorAll (anchor_selector cslug categorySlug) region;
  [ tier_container region a; tier_siblings region a; tier_anchor region a ].

(** Two nodes are headings of one rank: elements with the same tag name. *)
Definition same_rank (h n : node) : bool :=
  match h, n with
  | Elem a _, Elem b _ => String.eqb (tagName a) (tagName b)
  | _, _ => false
  end.

(** A present percentage satisfies [P]; an absent one is not constrained. *)
Definition if_present (P : Z -> Prop) (x : option Z) : Prop :=
  match x with Some v => P v | None => True end.

Definition subcategory_within (P : Z -> Prop) (s : Scraper.subcategory) : Prop :=
  if_present P (Scraper.sub_weight s) /\
  Forall (fun kv => if_present P kv.2) (Scraper.sub_scores s).

Definition category_within (P : Z -> Prop) (c : Scraper.category) : Prop :=
  if_present P (Scraper.cat_weight c) /\
  Forall (subcategory_within P) (Scraper.cat_subcategories c).

(** A heading whose text is empty once stripped: the header loop of
    [parse_category_page] passes it over. *)
Definition blank_heading (h : path * node) : Prop :=
  trim is_space_py (inner_text h.2) = EmptyString.


End Reference.

(** ** The rubric reader in the words of the specification *)

Module Resolution.

Import Str Dom Browser Scraper.

Section Matching.

(** How the text of a heading is compared with the text looked for. *)
Variable matches : string -> node -> bool.

(** The headings of rank [tag] whose text matches [text], in document
    order. *)
Definition headings (tag text : string) (root : node) : list (path * node) :=
  filter (fun pn => has_tag tag pn.2 = true /\ matches text pn.2 = true)
         (elements root).

(** The three steps in their order: the rank and the text of the first step
    that finds a heading. *)
Definition step (title : string) (root : node) : option (string * string) :=
  match headings "H3" title root with
  | _ :: _ => Some ("H3", title)
  | [] =>
      match headings "H2" title root with
      | _ :: _ => Some ("H2", title)
      | [] =>
          match headings "H3" (colon_prefix title) root with
          | _ :: _ => Some ("H3", colon_prefix title)
          | [] => None
          end
      end
  end.

(** The heading a step stands for on a tree: its first match there. *)
Definition heading (q : string * string) (root : node) : option path :=
  fst <$> head (headings q.1 q.2 root).

(** The first element after the heading, outside of it, that satisfies
    [pred]. *)
Definition first_after (pred : node -> bool) (root : node) (h : path)
  : option (path * node) :=
  head (filter (fun pn => pred pn.2 = true) (following root h)).

(** The tree once the disclosure control after the heading has been
    clicked; it is the tree as it was when there is no control or the click
    raises. *)
Definition activated (pg : page) (q : string * string) : node :=
  default (dom pg)
    (h ← heading q (dom pg);
     t ← first_after is_toggle (dom pg) h;
     script pg t.1 (dom pg)).

Definition fields (n : node) : rubric :=
  Rubric (Some (inner_text n)) (Some (inner_html n)).

(** What is read for a step on a tree: the rubric block after the heading
    when it is visible, else the first rubric block of the whole document,
    else nothing. *)
Definition rubric_of (q : string * string) (root : node) : rubric :=
  let near :=
    h ← heading q root;
    b ← first_after is_rubric root h;
    if is_visible b.2 then Some b.2 else None in
  let anywhere :=
    snd <$> head (filter (fun pn => is_rubric_div pn.2 = true) (elements root)) in
  match near, anywhere with
  | Some n, _ => fields n
  | None, Some n => fields n
  | None, None => no_rubric
  end.

(** What is recorded for a title on a page. *)
Definition recorded (pg : page) (title : string) : rubric :=
  match step title (dom pg) with
  | Some q => rubric_of q (activated pg q)
  | None => no_rubric
  end.

End Matching.

(** The comparison the specification names: the text of the heading is the
    title. *)
Definition exact_title (text : string) (n : node) : bool :=
  bool_decide (trim is_space_py (inner_text n) = text).

End Resolution.

(** ** Documents the properties are exercised on *)

Module Fixtures.

Import Str Dom Browser CategoryPage Scraper.

Definition el (tag cls : string) (text : string) (kids : list node) : node :=
  Elem (Attrs tag cls None text text true) kids.

Definition link (target text : string) : node :=
  Elem (Attrs "A" EmptyString (Some target) text text true) [Text text].

Definition para (text : string) : node := el "P" EmptyString text [Text text].

Definition h2 (text : string) : node := el "H2" EmptyString text [Text text].

Definition h3 (text : string) : node := el "H3" EmptyString text [Text text].

Definition html (kids : list node) : node :=
  el "HTML" EmptyString EmptyString [el "BODY" EmptyString "Planning 12 % weight" kids].

(** A category page: two subcategories; the first has a score card whose
    text carries a percentage before the link's own. *)
Definition first_heading : node := h2 "Evals: domains, quality, elicitation".

Definition first_block : list node :=
  [ Text "stray text";
    para "Weighted 60% of category";
    el "DIV" "wrap" EmptyString
      [ el "DIV" "score-card" EmptyString
          [ Text "10% "; link "/cell/xai/planning" "50%" ];
        h2 "nested heading" ] ].

Definition second_block : list node :=
  [ h2 "Second";
    para "Weighted 250% of category";
    link "/cell/openai/planning" "n/a";
    el "SPAN" EmptyString "77 %" [Text "77 %"] ].

Definition category_body : list node :=
  [] ++ first_heading :: first_block ++ second_block.

Definition category_dom : node := html category_body.

(** The handle of the first [h2] of [category_dom]: child 0 of [body]. *)
Definition first_h2 : path := [0; 0]%nat.

(** A heading followed by nine paragraphs, the ninth carrying the weight. *)
Definition far_weight_dom : node :=
  html (h2 "Far" :: replicate 8 (para "filler") ++ [para "Weighted 30% of category"]).

(** A cell page with one disclosure.  Expanded, the control reads "hide" and
    the rubric block is in the tree; collapsed, it reads "show" and the block
    is gone. *)
Definition rubric_block (text : string) : node :=
  Elem (Attrs "DIV" "text-sm links" None text ("<p>" +:+ text +:+ "</p>") true) [Text text].

Definition cell_expanded : node :=
  html [ h3 "Evals";
         el "BUTTON" EmptyString hide_label [Text hide_label];
         rubric_block "desc-A" ].

Definition cell_collapsed : node :=
  html [ h3 "Evals";
         el "BUTTON" EmptyString show_label [Text show_label] ].

(** The page's script: a click on the control flips the disclosure. *)
Definition toggle_script (t : path) (d : node) : option node :=
  if decide (t = [0; 1]%nat)
  then if includes hide_label (textContent d) then Some cell_collapsed
       else Some cell_expanded
  else Some d.

(** A script that leaves the page alone, and one whose clicks raise. *)
Definition inert_script (t : path) (d : node) : option node := Some d.
Definition failing_script (t : path) (d : node) : option node := None.


(** A site that serves the same category page, and the same cell page, for
    every category. *)
Definition demo_site (u : string) : exn + document :=
  if includes "/cell/" u then inr (Document cell_collapsed toggle_script)
  else inr (Document category_dom inert_script).

End Fixtures.

(** ** Further helpers and sample documents *)

Module Text.

(** Every character of [s] satisfies [p]. *)
Fixpoint all (p : ascii -> bool) (s : string) : bool :=
  match s with
  | EmptyString => true
  | String c r => p c && all p r
  end.

(** [s[k:]] *)
Fixpoint skip (k : nat) (s : string) : string :=
  match k, s with
  | S k', String _ r => skip k' r
  | _, _ => s
  end.

End Text.

Module Samples.

Import Str Dom Browser CategoryPage Scraper Fixtures.

(** A heading that is the last element of its parent. *)
Definition lonely_heading_dom : node := html [para "intro"; h2 "Only"].

(** Two headings with no element between them; the weight line belongs to
    the second. *)
Definition adjacent_headings_dom : node :=
  html [h2 "First"; Text " "; h2 "Second"; para "Weighted 40% of category"].

(** A page with a blank heading between two named ones. *)
Definition blank_heading_dom : node :=
  html [h2 "  One "; h2 "   "; h2 "Two"].

(** A site on which nothing loads. *)
Definition dead_site (u : string) : exn + document := inl PWError.

(** A page without a named heading: one blank [h2] and a paragraph. *)
Definition bare_dom : node := html [h2 "   "; para "nothing to see"].

(** A site whose overview and category pages have no named heading. *)
Definition quiet_site (u : string) : exn + document :=
  if includes "/cell/" u then inr (Document cell_collapsed toggle_script)
  else inr (Document bare_dom inert_script).

(** The same site with the page of one category out of reach. *)
Definition quiet_broken_site (u : string) : exn + document :=
  if decide (u = category_url "scheming") then inl PWError else quiet_site u.

(** An overview page that gives a category a weight above 100. *)
Definition overview_dom (text : string) : node :=
  el "HTML" EmptyString EmptyString [el "BODY" EmptyString text []].

Definition overweight_site (u : string) : exn + document :=
  if decide (u = urljoin BASE "categories")
  then inr (Document (overview_dom "Planning 250 % weight") inert_script)
  else quiet_site u.

(** A subcategory record of which only the name matters. *)
Definition named (title : string) : subcat := Subcat title None [].



(** A cell page whose heading contains the word looked for, in another
    letter case and among other words; its rubric block is not a [div]. *)
Definition loose_heading_dom : node :=
  html [ h3 "All about EVALS";
         Elem (Attrs "SECTION" "text-sm links" None "desc-X" "<p>desc-X</p>" true)
              [Text "desc-X"] ].

Definition loose_heading_site (u : string) : exn + document :=
  inr (Document loose_heading_dom inert_script).

(** A category page as scraper-v3.py reads it: one heading whose block has
    the label pair of a single company. *)
Definition label_pair_dom : node :=
  html [ h2 "Evals";
         para ("Image: OpenAI" +:+ String "010" "77%") ].

End Samples.

(** ** scraper-v3.py: _extract_subcategories *)

Module V3.

Import Str Dom Browser CategoryPage Reference.

(** [_norm_space]: [re.sub(r"\s+", " ", s or "").strip()], that is the
    whitespace-separated words joined by single spaces. *)
Definition norm_space (s : string) : string :=
  join_tokens (tokens is_space_py s).

(** [WEIGHT_RE = re.compile(r"Weighted\s+(\d+)%\s+of category", re.I)]
    anchored at the start of [s]; the result is group 1. *)
Definition weighted_at (s : string) : option string :=
  r1 ← strip_prefix eq_ci "Weighted" s;
  r2 ← Re.spaces1 is_space_py r1;
  '(d, r3) ← Re.digits1 r2;
  r4 ← strip_prefix Ascii.eqb "%" r3;
  r5 ← Re.spaces1 is_space_py r4;
  _ ← strip_prefix eq_ci "of category" r5;
  Some d.

(** [WEIGHT_RE.search(txt)], group 1 of the leftmost match. *)
Fixpoint weight_match (s : string) : option string :=
  match weighted_at s with
  | Some d => Some d
  | None =>
      match s with
      | EmptyString => None
      | String _ r => weight_match r
      end
  end.

(** [m = WEIGHT_RE.search(txt)] and [int(m.group(1))] under
    [with suppress(Exception)]: the weight one element yields.  When [int]
    raises, the exception is suppressed and the element yields nothing. *)
Definition search_weighted (s : string) : option Z :=
  d ← weight_match s;
  match Python.int d with
  | inr w => Some w
  | inl _ => None
  end.

(** <<
        weight = None
        for j in range(1, 12):
            sib = nodes.nth(i).locator(f"xpath=following::*[{j}]")
            with suppress(Exception):
                txt = _norm_space(await sib.inner_text())
                m = WEIGHT_RE.search(txt)
                if m:
                    weight = int(m.group(1))
                    break
>>
    [following::*[j]] is the [j]-th element after the heading in document
    order; reading a locator that matches nothing raises, which is
    suppressed. *)
Fixpoint weight_lookahead (js : list nat) (foll : list (path * node))
  : option Z :=
  match js with
  | [] => None
  | j :: rest =>
      match foll !! (j - 1)%nat with
      | Some pn =>
          match search_weighted (norm_space (inner_text pn.2)) with
          | Some w => Some w
          | None => weight_lookahead rest foll
          end
      | None => weight_lookahead rest foll
      end
  end.

Definition weight_near (root : node) (h : path) : option Z :=
  weight_lookahead (seq 1 11) (following root h).

(** <<
        joined = "\n".join(collected)
        scores = {}
        for comp in COMPANIES:
            m = re.search(rf"Image:\s*{re.escape(comp)}\s*\n(\d+)%", joined)
            if m:
                scores[comp] = int(m.group(1))
>> *)
Definition joined_text (root : node) (h : path) : string :=
  join_lines (inner_text <$> regionNodes root h).

Definition official_scores (joined : string) : list (string * Z) :=
  omap (fun comp => v ← search_label_pair comp joined; Some (comp, v)) COMPANIES.

(** The label pair once more, giving group 1 as it is matched. *)
Definition label_digits_at (label s : string) : option string :=
  r1 ← strip_prefix Ascii.eqb "Image:" s;
  r2 ← strip_prefix Ascii.eqb label (drop_while is_space_py r1);
  let '(ws, r3) := span is_space_py r2 in
  match rev ws with
  | String c _ =>
      if Ascii.eqb c "010" then
        '(d, r4) ← Re.digits1 r3;
        _ ← strip_prefix Ascii.eqb "%" r4;
        Some d
      else None
  | EmptyString => None
  end.

Fixpoint search_label_digits (label s : string) : option string :=
  match label_digits_at label s with
  | Some d => Some d
  | None =>
      match s with
      | EmptyString => None
      | String _ r => search_label_digits label r
      end
  end.

(** The loop over [COMPANIES] as it runs: [int] is not guarded here, so its
    [ValueError] leaves the loop and the function. *)
Fixpoint scores_loop (joined : string) (comps : list string)
  (scores : list (string * Z)) : exn + list (string * Z) :=
  match comps with
  | [] => inr scores
  | comp :: rest =>
      match search_label_digits comp joined with
      | Some d =>
          v ← Python.int d;
          scores_loop joined rest (Patched.dict_set comp v scores)
      | None => scores_loop joined rest scores
      end
  end.

(** [{"name": name, "weight": weight, "official_scores": scores}] *)
Record subcat := Subcat {
  name : string;
  weight : option Z;
  scores : list (string * Z)
}.

Definition extract_header (root : node) (h : path * node)
  : exn + option subcat :=
  let name := norm_space (inner_text h.2) in
  if decide (name = EmptyString) then inr None
  else
    scores ← scores_loop (joined_text root h.1) COMPANIES [];
    mret (Some (Subcat name (weight_near root h.1) scores)).

(** [_extract_subcategories(page)] *)
Fixpoint extract_loop (root : node) (headers : list (path * node))
  (subcats : list subcat) : exn + list subcat :=
  match headers with
  | [] => inr subcats
  | h :: rest =>
      r ← extract_header root h;
      extract_loop root rest
        (match r with Some sc => subcats ++ [sc] | None => subcats end)
  end.

Definition extract_subcategories (root : node) : exn + list subcat :=
  extract_loop root (by_tag "H2" root) [].

End V3.

(** ** scraper-v6.py: _extract_scores_from_region_html *)

Module V6.

Import Str Browser.

(** [re.sub(r"\s+", " ", region_html)] *)
Fixpoint collapse_from (in_run : bool) (s : string) : string :=
  match s with
  | EmptyString => EmptyString
  | String c r =>
      if is_space_py c
      then if in_run then collapse_from true r
           else String " " (collapse_from true r)
      else String c (collapse_from false r)
  end.

Definition collapse_spaces (s : string) : string := collapse_from false s.

(** [(\d+)\s*%] of a Python pattern, anchored and searched; the result is
    group 1. *)
Definition percent_at (s : string) : option string :=
  '(d, r) ← Re.digits1 s;
  match drop_while is_space_py r with
  | String "%" _ => Some d
  | _ => None
  end.

Fixpoint search_percent (s : string) : option string :=
  match percent_at s with
  | Some d => Some d
  | None =>
      match s with
      | EmptyString => None
      | String _ r => search_percent r
      end
  end.

(** One double or single quote. *)
Definition strip_quote (s : string) : option string :=
  match s with
  | String c r =>
      if Ascii.eqb c "034" || Ascii.eqb c "039" then Some r else None
  | EmptyString => None
  end.

(** [(.*?)</a>]: the shortest content before a closing tag. *)
Fixpoint lazy_until_close (s : string) : option string :=
  match strip_prefix eq_ci "</a>" s with
  | Some _ => Some EmptyString
  | None =>
      match s with
      | EmptyString => None
      | String c r => String c <$> lazy_until_close r
      end
  end.

(** [href=["']<target>["'][^>]*>(.*?)</a>] anchored at the start of [r];
    the result is group 1. *)
Definition tag_tail (target r : string) : option string :=
  r1 ← strip_prefix eq_ci "href=" r;
  r2 ← strip_quote r1;
  r3 ← strip_prefix eq_ci target r2;
  r4 ← strip_quote r3;
  r5 ← strip_prefix Ascii.eqb ">" (drop_while (fun c => negb (Ascii.eqb c ">")) r4);
  lazy_until_close r5.

(** [[^>]+] followed by the tail: one character or more, none of them [>],
    the longest run tried first. *)
Fixpoint attrs_then (target r : string) : option string :=
  match r with
  | EmptyString => None
  | String c r' =>
      if Ascii.eqb c ">" then None
      else match attrs_then target r' with
           | Some inner => Some inner
           | None => tag_tail target r'
           end
  end.

Definition anchor_at (target s : string) : option string :=
  r ← strip_prefix eq_ci "<a" s; attrs_then target r.

(** [pat.search(region)], group 1 of the leftmost match. *)
Fixpoint search_anchor (target s : string) : option string :=
  match anchor_at target s with
  | Some inner => Some inner
  | None =>
      match s with
      | EmptyString => None
      | String _ r => search_anchor target r
      end
  end.

(** <<
        m = pat.search(region)
        if not m:
            scores[company] = None
            continue
        anchor_inner = m.group(1)
        m2 = re.search(r"(\d+)\s*%", anchor_inner)
        scores[company] = int(m2.group(1)) if m2 else None
>> *)
Definition company_score (region category_slug cslug : string)
  : exn + option Z :=
  match search_anchor ("/cell/" +:+ cslug +:+ "/" +:+ category_slug) region with
  | None => inr None
  | Some anchor_inner =>
      match search_percent anchor_inner with
      | Some d => v ← Python.int d; mret (Some v)
      | None => inr None
      end
  end.

Fixpoint scores_loop (region category_slug : string)
  (companies : list (string * string)) (scores : list (string * option Z))
  : exn + list (string * option Z) :=
  match companies with
  | [] => inr scores
  | (company, cslug) :: rest =>
      v ← company_score region category_slug cslug;
      scores_loop region category_slug rest (Patched.dict_set company v scores)
  end.

(** [_extract_scores_from_region_html(region_html, category_slug)] *)
Definition extract_scores_from_region_html (region_html category_slug : string)
  : exn + list (string * option Z) :=
  let region := collapse_spaces region_html in
  scores_loop region category_slug COMPANY_SLUG [].

End V6.

(** * Properties *)

Import Str Dom Browser CategoryPage Scraper Reference.

(** ** Numbers read off a page are never negative *)

Lemma digits_value_nonneg (s : string) (acc : Z) :
  (0 <= acc)%Z -> (0 <= digits_value acc s)%Z.
Proof.
  revert acc. induction s as [|c s IH]; intros acc Hacc; simpl; [done|].
  apply IH. unfold digit_value. lia.
Qed.

Lemma parseInt_nonneg (d : string) : (0 <= parseInt d)%Z.
Proof. apply digits_value_nonneg. lia. Qed.

Lemma percent_at_nonneg (s : string) (v : Z) :
  Re.percent_at s = Some v -> (0 <= v)%Z.
Proof.
  unfold Re.percent_at. destruct (Re.digits1 s) as [[d r]|]; simpl; [|done].
  destruct (drop_while is_space_js r) as [|[[] [] [] [] [] [] [] []] r'];
    try done.
  intros [= <-]. apply parseInt_nonneg.
Qed.

Lemma search_percent_nonneg (s : string) (v : Z) :
  Re.search_percent s = Some v -> (0 <= v)%Z.
Proof.
  induction s as [|c s IH]; cbn [Re.search_percent].
  - destruct (Re.percent_at "") eqn:E; [|done].
    intros [= <-]. by eapply percent_at_nonneg.
  - destruct (Re.percent_at (String c s)) eqn:E; [|done].
    intros [= <-]. by eapply percent_at_nonneg.
Qed.

Lemma weighted_at_nonneg (s : string) (v : Z) :
  Re.weighted_at s = Some v -> (0 <= v)%Z.
Proof.
  unfold Re.weighted_at. intros H.
  repeat (simplify_option_eq; try case_match); apply parseInt_nonneg.
Qed.

Lemma search_weighted_nonneg (s : string) (v : Z) :
  Re.search_weighted s = Some v -> (0 <= v)%Z.
Proof.
  induction s as [|c s IH]; cbn [Re.search_weighted].
  - destruct (Re.weighted_at "") eqn:E; [|done].
    intros [= <-]. by eapply weighted_at_nonneg.
  - destruct (Re.weighted_at (String c s)) eqn:E; [|done].
    intros [= <-]. by eapply weighted_at_nonneg.
Qed.

Lemma weight_tail_at_nonneg (s : string) (v : Z) :
  Re.weight_tail_at s = Some v -> (0 <= v)%Z.
Proof.
  unfold Re.weight_tail_at. intros H.
  repeat (simplify_option_eq; try case_match); apply parseInt_nonneg.
Qed.

Lemma lazy_window_nonneg (n : nat) (s : string) (v : Z) :
  Re.lazy_window n s = Some v -> (0 <= v)%Z.
Proof.
  revert s. induction n as [|n IH]; intros s; cbn [Re.lazy_window].
  - destruct (Re.weight_tail_at s) eqn:E; [|done].
    intros [= <-]. by eapply weight_tail_at_nonneg.
  - destruct (Re.weight_tail_at s) eqn:E.
    + intros [= <-]. by eapply weight_tail_at_nonneg.
    + destruct s; [done|]. apply IH.
Qed.

Lemma search_category_weight_nonneg (title s : string) (v : Z) :
  Re.search_category_weight title s = Some v -> (0 <= v)%Z.
Proof.
  assert (Hat : forall s', Re.category_weight_at title s' = Some v -> (0 <= v)%Z).
  { intros s'. unfold Re.category_weight_at.
    destruct (strip_prefix eq_ci title s') as [r|]; [|done].
    intros H. exact (lazy_window_nonneg 300 r v H). }
  induction s as [|c s IH]; cbn [Re.search_category_weight].
  - destruct (Re.category_weight_at title "") eqn:E; [|done].
    intros [= <-]. by eapply Hat.
  - destruct (Re.category_weight_at title (String c s)) eqn:E; [|done].
    intros [= <-]. by eapply Hat.
Qed.

(** ** Region slicer *)

Lemma parentElement_snoc (q : path) (i : nat) : parentElement (q ++ [i]) = Some q.
Proof.
  unfold parentElement. destruct (q ++ [i]) eqn:E.
  - by destruct q.
  - rewrite <- E. by rewrite removelast_last.
Qed.

Lemma next_element_siblings_child (root : node) (q : path) (a : attrs)
  (kids : list node) (i : nat) :
  get root q = Some (Elem a kids) ->
  next_element_siblings root (q ++ [i]) =
  element_siblings_from q (S i) (drop (S i) kids).
Proof.
  intros Hq. unfold next_element_siblings.
  by rewrite parentElement_snoc, last_snoc, Hq.
Qed.

Lemma same_rank_h2 (H n : node) :
  has_tag "H2" H = true -> has_tag "H2" n = same_rank H n.
Proof.
  destruct H as [|a ka]; [done|]. simpl. intros Ha%String.eqb_eq.
  destruct n as [|b kb]; [done|]. simpl. rewrite Ha.
  apply String.eqb_sym.
Qed.

Lemma take_until_h2_between (H : node) (mid rest : list node) (q : path) (i : nat) :
  has_tag "H2" H = true ->
  Forall (fun n => same_rank H n = false) mid ->
  match rest with [] => True | n :: _ => same_rank H n = true end ->
  take_until_h2 (element_siblings_from q i (mid ++ rest)) =
  filter (fun n => is_element n = true) mid.
Proof.
  intros HH Hmid Hrest. revert i.
  induction Hmid as [|x mid Hx Hmid IH]; intros i.
  - destruct rest as [|n rest]; [done|].
    rewrite <- (same_rank_h2 H n HH) in Hrest.
    destruct n as [|b kb]; [done|].
    cbn [app element_siblings_from take_until_h2]. by rewrite Hrest.
  - rewrite <- (same_rank_h2 H x HH) in Hx.
    destruct x as [d|b kb]; cbn [app element_siblings_from take_until_h2].
    + rewrite filter_cons_False by done. apply IH.
    + rewrite Hx, filter_cons_True by done. f_equal. apply IH.
Qed.

(** C4.  A parent's children are [pre ++ H :: mid ++ rest], [H] an [h2]
    heading, no node of [mid] a heading of the rank of [H], and [rest] empty
    or starting with a heading of that rank.  Then the region of [H] is
    exactly the elements of [mid], in document order, whatever the nodes of
    [mid] contain below them; it is empty when no element lies between the
    two headings. *)
Theorem region_slicer_between (root : node) (q : path) (a : attrs)
  (pre mid rest : list node) (H : node) :
  get root q = Some (Elem a (pre ++ H :: mid ++ rest)) ->
  has_tag "H2" H = true ->
  Forall (fun n => same_rank H n = false) mid ->
  match rest with [] => True | n :: _ => same_rank H n = true end ->
  regionNodes root (q ++ [length pre]) = filter (fun n => is_element n = true) mid
  /\ (Forall (fun n => is_element n = false) mid ->
      regionNodes root (q ++ [length pre]) = []).
Proof.
  intros Hq HH Hmid Hrest.
  assert (Hregion : regionNodes root (q ++ [length pre]) =
                    filter (fun n => is_element n = true) mid).
  { unfold regionNodes. rewrite (next_element_siblings_child _ _ _ _ _ Hq).
    replace (drop (S (length pre)) (pre ++ H :: mid ++ rest)) with (mid ++ rest).
    - by apply (take_until_h2_between H).
    - rewrite (cons_middle H), app_assoc.
      rewrite drop_app_length'; [done|]. rewrite length_app. simpl. lia. }
  split; [done|]. intros Htext. rewrite Hregion. clear -Htext.
  induction Htext as [|x mid' Hx _ IH]; [done|].
  rewrite filter_cons_False; [done|by rewrite Hx].
Qed.

Import Fixtures.

Lemma region_slicer_between_witness :
  regionNodes category_dom [0; 0]%nat =
    [ para "Weighted 60% of category";
      el "DIV" "wrap" EmptyString
        [ el "DIV" "score-card" EmptyString
            [ Text "10% "; link "/cell/xai/planning" "50%" ];
          h2 "nested heading" ] ].
Proof.
  refine (proj1 (region_slicer_between category_dom [0%nat]
                   (Attrs "BODY" EmptyString None "Planning 12 % weight"
                      "Planning 12 % weight" true)
                   [] first_block second_block first_heading _ _ _ _)).
  - reflexivity.
  - reflexivity.
  - repeat constructor.
  - reflexivity.
Defined.

(** ** Weight parser *)

Lemma weight_scan_window (budget : nat) (chain : list (path * node)) :
  weight_scan budget chain =
  first_some ((fun pn => Re.search_weighted (trim is_space_js (inner_text pn.2)))
                <$> take budget chain).
Proof.
  revert chain. induction budget as [|b IH]; intros [|[p n] chain]; try done.
  cbn [weight_scan take fmap list_fmap first_some].
  destruct (Re.search_weighted _); [done|]. apply IH.
Qed.

(** C6, as the code has it.  The weight parser examines the first 8 element
    siblings that follow the heading: the first whose text matches
    "Weighted <percent> of category" gives the weight, and when none of them
    matches the weight is the unknown value. *)
Theorem weight_parser_window (root : node) (h2 : path) :
  get_weight_js root h2 = weight_in_window 8 root h2.
Proof. apply weight_scan_window. Qed.

(** C6, as stated, fails: no window of 10 to 14 elements describes the
    parser.  After the heading of [far_weight_dom] the ninth element carries
    the weight; every such window finds 30, the parser finds nothing. *)
Lemma weight_parser_window_counterexample :
  ~ exists budget : nat,
      (10 <= budget <= 14)%nat /\
      forall root h2, get_weight_js root h2 = weight_in_window budget root h2.
Proof.
  intros (b & Hb & H). specialize (H far_weight_dom first_h2).
  assert (Hcases : b = 10 \/ b = 11 \/ b = 12 \/ b = 13 \/ b = 14) by lia.
  destruct Hcases as [-> | [-> | [-> | [-> | ->] ] ] ];
    vm_compute in H; discriminate.
Qed.

(** ** Score extractor *)

Lemma first_some_app {A : Type} (l k : list (option A)) :
  first_some (l ++ k) =
  match first_some l with Some v => Some v | None => first_some k end.
Proof. induction l as [|[v|] l IH]; simpl; auto. Qed.

Lemma first_some_None {A : Type} (l : list (option A)) :
  Forall (fun r => r = None) l -> first_some l = None.
Proof. induction 1 as [|r l -> _ IH]; simpl; auto. Qed.

Lemma first_some_Some {A : Type} (l : list (option A)) (v : A) :
  first_some l = Some v -> Some v ∈ l.
Proof.
  induction l as [|[x|] l IH]; simpl; [done| |].
  - intros [= ->]. apply list_elem_of_here.
  - intros H. apply list_elem_of_further. auto.
Qed.

Lemma anchor_loop_probes (region : node) (anchors : list path) :
  anchor_loop region anchors None =
  first_some
    (a ← anchors;
     [tier_container region a; tier_siblings region a; tier_anchor region a]).
Proof.
  induction anchors as [|a rest IH]; [done|].
  cbn [anchor_loop mbind list_bind]. rewrite first_some_app.
  cbn [first_some]. fold (tier_siblings region a).
  destruct (tier_container region a) as [v|] eqn:Ec.
  { rewrite decide_True by eauto. done. }
  rewrite decide_False by (by intros [? ?]).
  fold (tier_siblings region a).
  destruct (tier_siblings region a) as [v|] eqn:Es.
  { rewrite decide_True by eauto. done. }
  rewrite decide_False by (by intros [? ?]).
  destruct (tier_anchor region a) as [v|] eqn:Ea.
  { rewrite decide_True by eauto. done. }
  rewrite decide_False by (by intros [? ?]).
  apply IH.
Qed.

Lemma company_score_probes (region : node) (categorySlug cslug : string) :
  company_score region categorySlug cslug =
  first_some (code_order_probes region categorySlug cslug).
Proof. apply anchor_loop_probes. Qed.

(** C2, as the code has it.  For every region and entity the extractor goes
    through the references that match the entity and the category in document
    order and probes, for each, the container reached by the ancestry climb,
    then the container's next siblings, then the reference's own text; the
    first probe that yields a percentage is the score, and nothing tried
    later replaces it.  There is no label-pair probe, and the reference's own
    content comes last, not first. *)
Theorem score_cascade_order (region : node) (categorySlug cslug : string)
  (anchors : list path) :
  anchors = (fst <$> querySelectorAll (anchor_selector cslug categorySlug) region) ->
  company_score region categorySlug cslug =
  first_some
    (a ← anchors;
     [tier_container region a; tier_siblings region a; tier_anchor region a]).
Proof. intros ->. apply company_score_probes. Qed.

Lemma score_cascade_order_witness :
  company_score (region_of category_dom first_h2) "planning" "xai" =
  first_some
    (a ← [[1; 0; 1]%nat];
     [tier_container (region_of category_dom first_h2) a;
      tier_siblings (region_of category_dom first_h2) a;
      tier_anchor (region_of category_dom first_h2) a]).
Proof.
  apply (score_cascade_order (region_of category_dom first_h2) "planning" "xai").
  reflexivity.
Defined.

(** C2, as stated, fails.  In the first region of [category_dom] the xAI
    reference reads "50%" and sits in a card whose text starts with "10%":
    the order of the specification takes the reference's own content, 50; the
    code scans the card first and returns 10. *)
Lemma score_cascade_order_counterexample :
  spec_order_score (region_of category_dom first_h2) "planning" "xAI" "xai"
    = Some 50%Z /\
  company_score (region_of category_dom first_h2) "planning" "xai" = Some 10%Z.
Proof. split; vm_compute; reflexivity. Qed.

(** *** What the header loop of parse_category_page returns *)

Lemma parse_header_result (root : node) (slug : string) (h : path * node) :
  parse_header root slug h =
  if decide (blank_heading h) then inr None else inl TypeError.
Proof.
  unfold parse_header, blank_heading. by case_decide.
Qed.

Lemma parse_headers_result (root : node) (slug : string)
  (headers : list (path * node)) (subcats : list subcat) :
  parse_headers root slug headers subcats =
  if decide (Forall blank_heading headers) then inr subcats else inl TypeError.
Proof.
  revert subcats. induction headers as [|h headers IH]; intros subcats.
  - cbn [parse_headers]. by rewrite decide_True.
  - cbn [parse_headers]. rewrite parse_header_result.
    destruct (decide (blank_heading h)) as [Hb|Hn]; cbn [mbind result_bind].
    + rewrite IH. destruct (decide (Forall blank_heading headers)) as [Hf|Hf].
      * rewrite decide_True; [done|]. by constructor.
      * rewrite decide_False; [done|]. by intros [? ?]%Forall_cons.
    + rewrite decide_False; [done|]. by intros [? ?]%Forall_cons.
Qed.

Lemma parse_category_page_inv (w : site) (slug : string)
  (subcats : list subcat) :
  parse_category_page w slug = inr subcats ->
  subcats = [] /\
  exists d, w (category_url slug) = inr d /\
            Forall blank_heading (by_tag "H2" (doc_dom d)).
Proof.
  unfold parse_category_page, goto, category_url.
  destruct (w (urljoin BASE ("categories/" +:+ slug))) as [e|d]; [done|].
  cbn [mbind result_bind mret result_ret dom]. rewrite parse_headers_result.
  case_decide; [|done]. intros [= <-]. split; [done|]. by exists d.
Qed.

(** *** The scores of scraper-v3.py *)

Lemma omap_keys (g : string -> option Z) (l : list string) :
  (omap (fun c => v ← g c; Some (c, v)) l).*1 =
  filter (fun c => is_Some (g c)) l.
Proof.
  induction l as [|c l IH]; [done|]. cbn [omap list_omap].
  destruct (g c) as [v|] eqn:E; cbn [mbind option_bind].
  - rewrite filter_cons_True by (rewrite E; eauto).
    cbn [fmap list_fmap fst]. by rewrite <- IH.
  - rewrite filter_cons_False by (rewrite E; by intros [? ?]). exact IH.
Qed.

Lemma dict_get_omap (g : string -> option Z) (l : list string) (comp : string) :
  NoDup l ->
  dict_get comp (omap (fun c => v ← g c; Some (c, v)) l) =
  if decide (comp ∈ l) then g comp else None.
Proof.
  induction 1 as [|c l Hc Hl IH]; [done|]. cbn [omap list_omap].
  destruct (decide (c = comp)) as [->|Hne].
  - rewrite (decide_True (P := comp ∈ comp :: l)) by apply list_elem_of_here.
    destruct (g comp) as [v|] eqn:E; cbn [mbind option_bind].
    + cbn [dict_get]. rewrite decide_True; done.
    + rewrite IH. rewrite decide_False; done.
  - assert (Hdec : forall (A : Type) (x y : A),
              (if decide (comp ∈ c :: l) then x else y) =
              (if decide (comp ∈ l) then x else y)).
    { intros A x y. destruct (decide (comp ∈ l)) as [Hin|Hnin].
      - rewrite decide_True; [done|]. by apply list_elem_of_further.
      - rewrite decide_False; [done|].
        intros [?|?]%elem_of_cons; [congruence|done]. }
    rewrite Hdec.
    destruct (g c) as [v|]; cbn [mbind option_bind dict_get].
    + rewrite decide_False by done. exact IH.
    + exact IH.
Qed.

Lemma label_digits_pair (label s : string) :
  parseInt <$> V3.label_digits_at label s = label_pair_at label s.
Proof.
  unfold V3.label_digits_at, label_pair_at.
  destruct (strip_prefix Ascii.eqb "Image:" s) as [r1|]; [|done].
  cbn [mbind option_bind].
  destruct (strip_prefix Ascii.eqb label _) as [r2|]; [|done].
  cbn [mbind option_bind].
  destruct (span is_space_py r2) as [ws r3].
  destruct (rev ws) as [|c ?]; [done|].
  destruct (Ascii.eqb c "010"); [|done].
  destruct (Re.digits1 r3) as [[d r4]|]; [|done]. cbn [mbind option_bind].
  by destruct (strip_prefix Ascii.eqb "%" r4).
Qed.

Lemma search_label_digits_pair (label s : string) :
  parseInt <$> V3.search_label_digits label s = search_label_pair label s.
Proof.
  induction s as [|c s IH]; cbn [V3.search_label_digits search_label_pair];
    rewrite <- label_digits_pair;
    destruct (V3.label_digits_at label _); try done.
Qed.

Lemma int_returns (d : string) (v : Z) :
  Python.int d = inr v -> v = parseInt d.
Proof. unfold Python.int. case_decide; [|done]. by intros [= <-]. Qed.

Lemma dict_set_fresh {V : Type} (k : string) (v : V) (d : list (string * V)) :
  k ∉ d.*1 -> Patched.dict_set k v d = d ++ [(k, v)].
Proof.
  induction d as [|[k' v'] d IH]; intros Hk; [done|].
  cbn [Patched.dict_set]. rewrite decide_False.
  - cbn [app]. f_equal. apply IH. intros Hin. apply Hk.
    by apply list_elem_of_further.
  - intros ->. apply Hk. apply list_elem_of_here.
Qed.

Lemma v3_scores_loop_returns (joined : string) (comps : list string)
  (acc res : list (string * Z)) :
  NoDup comps -> (forall c, c ∈ comps -> c ∉ acc.*1) ->
  V3.scores_loop joined comps acc = inr res ->
  res = acc ++
    omap (fun comp => v ← search_label_pair comp joined; Some (comp, v)) comps.
Proof.
  intros Hnd. revert acc.
  induction Hnd as [|c comps Hc Hnd IH]; intros acc Hfresh.
  - cbn [V3.scores_loop omap list_omap]. intros [= <-]. by rewrite app_nil_r.
  - cbn [V3.scores_loop omap list_omap].
    rewrite <- (search_label_digits_pair c joined).
    destruct (V3.search_label_digits c joined) as [d|];
      cbn [fmap option_fmap option_map mbind option_bind].
    + destruct (Python.int d) as [e|v] eqn:Ev; [done|].
      cbn [mbind result_bind]. apply int_returns in Ev as ->.
      rewrite dict_set_fresh by (apply Hfresh, list_elem_of_here).
      intros Hres. apply IH in Hres.
      * by rewrite Hres, <- app_assoc.
      * intros c' Hc'. rewrite fmap_app. cbn [fmap list_fmap fst].
        intros [Hin|Hin%list_elem_of_singleton]%elem_of_app.
        -- revert Hin. apply Hfresh. by apply list_elem_of_further.
        -- congruence.
    + apply IH. intros c' Hc'. apply Hfresh. by apply list_elem_of_further.
Qed.

Lemma v3_extract_header_inv (root : node) (h : path * node) (sc : V3.subcat) :
  V3.extract_header root h = inr (Some sc) ->
  V3.name sc = V3.norm_space (inner_text h.2) /\
  V3.scores sc = V3.official_scores (V3.joined_text root h.1).
Proof.
  unfold V3.extract_header. case_decide; [done|].
  destruct (V3.scores_loop _ _ _) as [e|scores] eqn:E; [done|].
  cbn [mbind result_bind mret result_ret]. intros [= <-].
  split; [done|]. cbn [V3.scores].
  apply v3_scores_loop_returns in E; [exact E| |by intros ? _ ?%elem_of_nil].
  apply (bool_decide_unpack (NoDup COMPANIES)). by vm_compute.
Qed.

Lemma v3_extract_loop_inv (root : node) (headers : list (path * node))
  (acc res : list V3.subcat) (sc : V3.subcat) :
  V3.extract_loop root headers acc = inr res -> sc ∈ res ->
  sc ∈ acc \/ exists h, h ∈ headers /\ V3.extract_header root h = inr (Some sc).
Proof.
  revert acc. induction headers as [|h headers IH]; intros acc.
  - cbn [V3.extract_loop]. intros [= <-]. by left.
  - cbn [V3.extract_loop].
    destruct (V3.extract_header root h) as [e|r] eqn:Eh; [done|].
    cbn [mbind result_bind]. intros Hres Hsc.
    destruct (IH _ Hres Hsc) as [Hacc|(h' & Hh' & Hx)].
    + destruct r as [sc'|]; [|by left].
      apply elem_of_app in Hacc as [Hacc|Hacc%list_elem_of_singleton];
        [by left|subst sc'].
      right. exists h. split; [apply list_elem_of_here|done].
    + right. exists h'. split; [by apply list_elem_of_further|done].
Qed.

(** C3, as the code has it.  The in-page extractor of scraper-v8.py returns,
    for every heading, a mapping with an entry for every configured company,
    in the configured order: the entry is the first percentage a probe on
    the company's references yields, and the unknown value when no probe
    yields one.  The parser of scraper-v3.py gives a record an entry only
    for the companies whose label pair occurs in the block of the record's
    heading, with the number found there; a company that is not found has
    no entry.  Neither records 0 for a company that is not found. *)
Theorem scores_unknown_never_zero (root : node) (h2 : path) (slug : string)
  (page : node) (subcats : list V3.subcat) (sc : V3.subcat) :
  V3.extract_subcategories page = inr subcats ->
  sc ∈ subcats ->
  ((extract_scores_js root h2 slug COMPANY_SLUG).*1 = COMPANIES /\
   forall company cslug, (company, cslug) ∈ COMPANY_SLUG ->
     dict_get company (extract_scores_js root h2 slug COMPANY_SLUG) =
     Some (first_some (code_order_probes (region_of root h2) slug cslug))) /\
  exists h,
    h ∈ by_tag "H2" page /\
    V3.name sc = V3.norm_space (inner_text h.2) /\
    (V3.scores sc).*1 =
      filter (fun c => is_Some (search_label_pair c (V3.joined_text page h.1)))
             COMPANIES /\
    forall comp, comp ∈ COMPANIES ->
      dict_get comp (V3.scores sc) =
      search_label_pair comp (V3.joined_text page h.1).
Proof.
  intros Hrun Hsc. split.
  - split; [reflexivity|]. intros company cslug Hin.
    rewrite <- company_score_probes. unfold COMPANY_SLUG in Hin.
    repeat (apply elem_of_cons in Hin as [[= -> ->]|Hin]; [reflexivity|]).
    by apply elem_of_nil in Hin.
  - unfold V3.extract_subcategories in Hrun.
    destruct (v3_extract_loop_inv _ _ _ _ _ Hrun Hsc)
      as [Hnil%elem_of_nil|(h & Hh & Hx)]; [done|].
    apply v3_extract_header_inv in Hx as [Hname Hscores].
    exists h. split; [done|]. split; [done|]. rewrite Hscores. split.
    + apply (omap_keys (fun c => search_label_pair c (V3.joined_text page h.1))).
    + intros comp Hcomp. unfold V3.official_scores.
      rewrite (dict_get_omap
                 (fun c => search_label_pair c (V3.joined_text page h.1))).
      * by rewrite decide_True.
      * apply (bool_decide_unpack (NoDup COMPANIES)). by vm_compute.
Qed.

Lemma scores_unknown_never_zero_witness :
  dict_get "Meta"
    (extract_scores_js category_dom [0; 4]%nat "planning" COMPANY_SLUG)
    = Some None /\
  dict_get "OpenAI"
    (extract_scores_js category_dom [0; 4]%nat "planning" COMPANY_SLUG)
    = Some (Some 77%Z) /\
  exists sc,
    V3.extract_subcategories Samples.label_pair_dom = inr [sc] /\
    V3.name sc = "Evals" /\
    dict_get "OpenAI" (V3.scores sc) = Some 77%Z /\
    dict_get "Meta" (V3.scores sc) = None.
Proof.
  set (sc := V3.Subcat "Evals" None [("OpenAI", 77%Z)]).
  assert (Hrun : V3.extract_subcategories Samples.label_pair_dom = inr [sc])
    by (vm_compute; reflexivity).
  destruct (scores_unknown_never_zero category_dom [0; 4]%nat "planning"
              Samples.label_pair_dom [sc] sc Hrun (list_elem_of_here _ _))
    as ((_ & Hjs) & h & _ & _ & _ & Hv3).
  split; [|split].
  - rewrite (Hjs "Meta" "meta") by (vm_compute; set_solver).
    vm_compute; reflexivity.
  - rewrite (Hjs "OpenAI" "openai") by (vm_compute; set_solver).
    vm_compute; reflexivity.
  - exists sc. split; [exact Hrun|]. split; [reflexivity|].
    split; vm_compute; reflexivity.
Defined.

(** C3, as stated, fails on scraper-v3.py.  The record of a heading whose
    block names one company has a scores mapping with that one entry: the
    six other configured companies have no entry at all. *)
Lemma scores_unknown_never_zero_counterexample :
  exists subcats sc,
    V3.extract_subcategories Samples.label_pair_dom = inr subcats /\
    sc ∈ subcats /\
    (V3.scores sc).*1 = ["OpenAI"] /\
    (V3.scores sc).*1 <> COMPANIES /\
    dict_get "Anthropic" (V3.scores sc) = None.
Proof.
  exists [V3.Subcat "Evals" None [("OpenAI", 77%Z)]],
         (V3.Subcat "Evals" None [("OpenAI", 77%Z)]).
  split; [vm_compute; reflexivity|].
  split; [apply list_elem_of_here|]. split; [reflexivity|]. split; [|reflexivity].
  discriminate.
Qed.

(** ** Range of weights and scores *)

Lemma weight_scan_nonneg (budget : nat) (chain : list (path * node)) :
  if_present (fun v => (0 <= v)%Z) (weight_scan budget chain).
Proof.
  revert chain. induction budget as [|b IH]; intros [|[p n] chain]; try done.
  cbn [weight_scan].
  destruct (Re.search_weighted _) as [v|] eqn:E; [|apply IH].
  by eapply search_weighted_nonneg.
Qed.

Lemma tryNode_nonneg (el : option node) :
  if_present (fun v => (0 <= v)%Z) (tryNode el).
Proof.
  unfold tryNode. destruct (Re.search_percent _) as [v|] eqn:E; [|done].
  by eapply search_percent_nonneg.
Qed.

Lemma sibling_scan_nonneg (budget : nat) (chain : list (path * node))
  (val : option Z) :
  if_present (fun v => (0 <= v)%Z) val ->
  if_present (fun v => (0 <= v)%Z) (sibling_scan budget chain val).
Proof.
  revert chain val.
  induction budget as [|b IH]; intros [|[p n] chain] [v|] Hval; try done.
  cbn [sibling_scan]. apply IH, tryNode_nonneg.
Qed.

Lemma company_score_nonneg (region : node) (categorySlug cslug : string) :
  if_present (fun v => (0 <= v)%Z) (company_score region categorySlug cslug).
Proof.
  destruct (company_score region categorySlug cslug) as [v|] eqn:E; [|done].
  rewrite company_score_probes in E. apply first_some_Some in E.
  unfold code_order_probes in E.
  apply list_elem_of_bind in E as (a & Hv & _).
  repeat apply elem_of_cons in Hv as [Hv|Hv].
  - pose proof (tryNode_nonneg (get region (container_of region a))) as H.
    unfold tier_container in Hv. by rewrite <- Hv in H.
  - pose proof (sibling_scan_nonneg 4
      (next_element_siblings region (container_of region a)) None I) as H.
    unfold tier_siblings in Hv. by rewrite <- Hv in H.
  - pose proof (tryNode_nonneg (get region a)) as H.
    unfold tier_anchor in Hv. by rewrite <- Hv in H.
  - by apply elem_of_nil in Hv.
Qed.

Lemma extract_scores_nonneg (root : node) (h2 : path) (slug : string)
  (companySlugMap : list (string * string)) :
  Forall (fun kv => if_present (fun v => (0 <= v)%Z) kv.2)
         (extract_scores_js root h2 slug companySlugMap).
Proof.
  unfold extract_scores_js. apply Forall_fmap, Forall_forall.
  intros kv _. apply company_score_nonneg.
Qed.

Lemma weight_tail_digits_at (s : string) :
  parseInt <$> Re.weight_tail_digits s = Re.weight_tail_at s.
Proof.
  unfold Re.weight_tail_digits, Re.weight_tail_at.
  destruct (Re.digits1 s) as [[d r1]|]; [|done]. cbn [mbind option_bind].
  destruct (strip_prefix Ascii.eqb "%" _) as [r2|]; [|done].
  cbn [mbind option_bind].
  by destruct (strip_prefix eq_ci "weight" _).
Qed.

Lemma lazy_window_digits_at (n : nat) (s : string) :
  parseInt <$> Re.lazy_window_digits n s = Re.lazy_window n s.
Proof.
  revert s. induction n as [|n IH]; intros s;
    cbn [Re.lazy_window_digits Re.lazy_window];
    rewrite <- weight_tail_digits_at;
    destruct (Re.weight_tail_digits s); try done.
  destruct s as [|c s]; [done|]. apply IH.
Qed.

Lemma search_category_digits_weight (title s : string) :
  parseInt <$> Re.search_category_digits title s =
  Re.search_category_weight title s.
Proof.
  assert (Hat : forall t, parseInt <$> Re.category_digits_at title t =
                          Re.category_weight_at title t).
  { intros t. unfold Re.category_digits_at, Re.category_weight_at.
    destruct (strip_prefix eq_ci title t) as [r|]; [|done].
    cbn [mbind option_bind]. exact (lazy_window_digits_at 300 r). }
  induction s as [|c s IH];
    cbn [Re.search_category_digits Re.search_category_weight];
    rewrite <- Hat; destruct (Re.category_digits_at title _); try done.
Qed.

(** When the loop over the categories returns, every title has been given
    what its own search finds. *)
Lemma weights_loop_returns (body : string) (cats : list (string * string))
  (m res : gmap string (option Z)) :
  weights_loop body cats m = inr res ->
  res = foldl (fun (weights : gmap string (option Z)) st =>
                 <[st.2 := Re.search_category_weight st.2 body]> weights)
              m cats.
Proof.
  revert m. induction cats as [|[slug title] cats IH]; intros m.
  - cbn [weights_loop foldl]. by intros [= <-].
  - cbn [weights_loop foldl snd].
    rewrite <- (search_category_digits_weight title body).
    destruct (Re.search_category_digits title body) as [d|];
      cbn [fmap option_fmap option_map].
    + destruct (Python.int d) as [e|v] eqn:Ev; [done|].
      apply int_returns in Ev as ->. cbn [mbind result_bind mret result_ret].
      apply IH.
    + cbn [mbind result_bind]. apply IH.
Qed.

Lemma category_weights_nonneg (w : site) (weights : gmap string (option Z))
  (title : string) :
  get_category_weights w = inr weights ->
  if_present (fun v => (0 <= v)%Z) (mjoin (weights !! title)).
Proof.
  unfold get_category_weights. generalize CATEGORIES. intros cats.
  destruct (goto w _) as [e|pg]; [done|]. cbn [mbind result_bind].
  destruct (body_text (dom pg)) as [e|body]; [done|].
  cbn [mbind result_bind mret result_ret]. intros ->%weights_loop_returns.
  assert (Hinv : forall (m : gmap string (option Z)),
    if_present (fun v => (0 <= v)%Z) (mjoin (m !! title)) ->
    if_present (fun v => (0 <= v)%Z)
      (mjoin (foldl (fun (weights : gmap string (option Z)) st =>
                <[st.2 := Re.search_category_weight st.2 body]> weights) m cats
              !! title))).
  { induction cats as [|[slug t] cats IH]; intros m Hm; [done|].
    cbn [foldl]. apply IH. cbn [snd].
    destruct (decide (t = title)) as [->|Hne].
    - rewrite lookup_insert_eq. cbn.
      destruct (Re.search_category_weight title body) as [v|] eqn:E; [|done].
      by eapply search_category_weight_nonneg.
    - by rewrite lookup_insert_ne. }
  apply Hinv. by rewrite lookup_empty.
Qed.

Lemma assemble_nonneg (title : string) (cat_weights : gmap string (option Z))
  (subcats : list subcat) (rubrics : gmap string rubric) :
  if_present (fun v => (0 <= v)%Z) (mjoin (cat_weights !! title)) ->
  Forall (fun sc => if_present (fun v => (0 <= v)%Z) (sc_weight sc) /\
                    Forall (fun kv => if_present (fun v => (0 <= v)%Z) kv.2)
                           (sc_scores sc)) subcats ->
  category_within (fun v => (0 <= v)%Z)
    (assemble title cat_weights subcats rubrics).
Proof.
  intros Hw Hsub. split; [done|]. cbn [cat_subcategories assemble].
  apply Forall_fmap. eapply Forall_impl; [exact Hsub|].
  intros sc [H1 H2]. by split.
Qed.

Lemma build_loop_nonneg (has_text : string -> node -> bool) (w : site)
  (cat_weights : gmap string (option Z)) (cats : list (string * string))
  (out res : list category) :
  (forall title, if_present (fun v => (0 <= v)%Z) (mjoin (cat_weights !! title))) ->
  Forall (category_within (fun v => (0 <= v)%Z)) out ->
  build_loop has_text w cat_weights cats out = inr res ->
  Forall (category_within (fun v => (0 <= v)%Z)) res.
Proof.
  intros Hw. revert out.
  induction cats as [|[slug title] cats IH]; intros out Hout; cbn [build_loop].
  - by intros [= <-].
  - destruct (parse_category_page w slug) as [e|subcats] eqn:Ep; [done|].
    cbn [mbind result_bind].
    destruct (scrape_subcategory_rubrics has_text w slug subcats)
      as [e|rubrics]; [done|].
    apply IH. apply Forall_app. split; [done|].
    apply Forall_singleton, assemble_nonneg; [apply Hw|].
    apply parse_category_page_inv in Ep as (-> & _). constructor.
Qed.

(** C5, as the code has it.  In every category of a dataset that
    [build_dataset] returns the weight, when present, is a whole number that
    is not negative, and so is every weight and score a subcategory under it
    carries; the weight and the scores the in-page helpers compute for a
    heading are not negative either.  The digits found on the page are
    taken as they are and no upper bound is applied anywhere. *)
Theorem weights_and_scores_nonneg (has_text : string -> node -> bool)
  (w : site) (cats : list category) (root : node) (h2 : path) (slug : string) :
  build_dataset has_text w = inr cats ->
  Forall (category_within (fun v => (0 <= v)%Z)) cats /\
  if_present (fun v => (0 <= v)%Z) (get_weight_js root h2) /\
  Forall (fun kv => if_present (fun v => (0 <= v)%Z) kv.2)
         (extract_scores_js root h2 slug COMPANY_SLUG).
Proof.
  intros Hrun. split; [|split].
  - revert Hrun. unfold build_dataset.
    destruct (get_category_weights w) as [e|cat_weights] eqn:Ew; [done|].
    cbn [mbind result_bind].
    apply build_loop_nonneg; [|done].
    intros title. by eapply category_weights_nonneg.
  - apply weight_scan_nonneg.
  - apply extract_scores_nonneg.
Qed.

Lemma weights_and_scores_nonneg_witness :
  exists cats,
    build_dataset has_text_ci Samples.quiet_site = inr cats /\
    cat_weight <$> cats !! 6%nat = Some (Some 12%Z) /\
    Forall (category_within (fun v => (0 <= v)%Z)) cats /\
    get_weight_js category_dom first_h2 = Some 60%Z.
Proof.
  destruct (build_dataset has_text_ci Samples.quiet_site) as [e|cats] eqn:E.
  - vm_compute in E. discriminate.
  - exists cats. split; [reflexivity|]. split.
    + vm_compute in E. injection E as <-. reflexivity.
    + destruct (weights_and_scores_nonneg has_text_ci Samples.quiet_site cats
                  category_dom first_h2 "planning" E) as (Hcats & _ & _).
      split; [exact Hcats|]. vm_compute. reflexivity.
Defined.

(** C5, as stated, fails.  The overview page of [overweight_site] reads
    "Planning 250 % weight"; none of its category pages has a named heading,
    so the run returns, and the record of the category Planning carries the
    weight 250.  The in-page weight parser has no bound either: for the
    heading followed by "Weighted 250% of category" it returns 250. *)
Lemma weights_and_scores_bound_counterexample :
  (exists cats c,
     build_dataset has_text_ci Samples.overweight_site = inr cats /\
     c ∈ cats /\
     cat_category c = "Planning" /\
     cat_weight c = Some 250%Z /\
     ~ Forall (category_within (fun v => (0 <= v <= 100)%Z)) cats) /\
  get_weight_js category_dom [0; 4]%nat = Some 250%Z.
Proof.
  split; [|vm_compute; reflexivity].
  destruct (build_dataset has_text_ci Samples.overweight_site)
    as [e|cats] eqn:E.
  - vm_compute in E. discriminate.
  - vm_compute in E. injection E as <-.
    eexists _, (Category "Planning" (Some 250%Z) []).
    split; [reflexivity|]. split; [|split; [reflexivity|split; [reflexivity|]]].
    + do 6 apply list_elem_of_further. apply list_elem_of_here.
    + intros HF. rewrite Forall_lookup in HF.
      destruct (HF 6%nat _ eq_refl) as [Hw _]. cbn in Hw. lia.
Qed.

(** ** Per-category failures *)

Lemma parse_category_page_fails (w : site) (slug : string) (e : exn) :
  w (category_url slug) = inl e -> parse_category_page w slug = inl e.
Proof.
  unfold parse_category_page, goto, category_url. by intros ->.
Qed.

Lemma build_loop_aborts (has_text : string -> node -> bool) (w : site)
  (cat_weights : gmap string (option Z)) (cats : list (string * string))
  (out : list category) (slug title : string) (e : exn) :
  (slug, title) ∈ cats ->
  w (category_url slug) = inl e ->
  exists e', build_loop has_text w cat_weights cats out = inl e'.
Proof.
  intros Hin Hfail. revert out.
  induction cats as [|[s t] cats IH]; intros out; [by apply elem_of_nil in Hin|].
  cbn [build_loop].
  destruct (parse_category_page w s) as [e1|subcats] eqn:Ep; [by exists e1|].
  cbn [mbind result_bind].
  destruct (scrape_subcategory_rubrics has_text w s subcats) as [e2|rubrics];
    [by exists e2|].
  apply elem_of_cons in Hin as [[= <- <-]|Hin].
  - by rewrite (parse_category_page_fails w slug e Hfail) in Ep.
  - by apply IH.
Qed.

(** C1 on scraper-v8.py.  When the page of a configured category fails to
    load, [build_dataset] does not return a dataset: the exception leaves the
    loop, no category is recorded, and [main] writes no file.  The claim
    asks for an empty subcategory list and a run that goes on. *)
Theorem build_dataset_aborts_on_navigation_failure
  (has_text : string -> node -> bool) (w : site) (slug title : string)
  (e : exn) :
  (slug, title) ∈ CATEGORIES ->
  w (category_url slug) = inl e ->
  exists e',
    build_dataset has_text w = inl e' /\
    forall (bytes : Type) (json_dump : list category -> bytes),
      main has_text json_dump w = inl e'.
Proof.
  intros Hin Hfail. unfold main, build_dataset.
  destruct (get_category_weights w) as [e1|cat_weights].
  - by exists e1.
  - cbn [mbind result_bind].
    destruct (build_loop_aborts has_text w cat_weights CATEGORIES [] slug title e
                Hin Hfail) as [e' ->].
    by exists e'.
Qed.

Lemma build_dataset_aborts_on_navigation_failure_witness :
  build_dataset has_text_ci Samples.quiet_broken_site = inl PWError.
Proof.
  destruct (build_dataset_aborts_on_navigation_failure has_text_ci
              Samples.quiet_broken_site
              "scheming" "Scheming risk prevention" PWError)
    as (e' & He & _).
  - unfold CATEGORIES. apply list_elem_of_further, list_elem_of_here.
  - reflexivity.
  - rewrite He. f_equal. vm_compute in He. by injection He.
Defined.

(** The driver of the patched scraper does what the claim says: every
    configured category gets an entry, in order, and the entry of a category
    whose extraction raised is the empty dict. *)
Lemma patched_main_loop_fold (entry : Type)
  (extract_category : site -> string -> exn + list (string * entry))
  (w : site) (cats : list (string * string))
  (out : list (string * list (string * entry))) :
  Patched.main_loop entry extract_category w cats out =
  foldl (fun out st =>
           Patched.dict_set st.2
             (match extract_category w st.1 with inr r => r | inl _ => [] end)
             out)
        out cats.
Proof.
  revert out. induction cats as [|[slug cat_name] cats IH]; intros out; [done|].
  cbn [Patched.main_loop foldl fst snd].
  destruct (extract_category w slug); apply IH.
Qed.

Lemma patched_main_records_failure (entry : Type)
  (extract_category : site -> string -> exn + list (string * entry))
  (w : site) :
  (Patched.main entry extract_category w).*1 = CATEGORIES.*2 /\
  forall slug cat_name, (slug, cat_name) ∈ CATEGORIES ->
    dict_get cat_name (Patched.main entry extract_category w) =
    Some (match extract_category w slug with inr r => r | inl _ => [] end).
Proof.
  unfold Patched.main. rewrite patched_main_loop_fold. split; [reflexivity|].
  intros slug cat_name Hin. unfold CATEGORIES in Hin.
  repeat (apply elem_of_cons in Hin as [[= -> ->]|Hin]; [reflexivity|]).
  by apply elem_of_nil in Hin.
Qed.

(** ** Toggle activation *)


(** ** Rubric reader *)

Lemma scrape_loop_lookup (has_text : string -> node -> bool)
  (subcats : list subcat) (pg : page) (m : gmap string rubric) (k : string) :
  ((k ∉ (sc_name <$> subcats)) /\
   (scrape_loop has_text pg subcats m).1 !! k = m !! k) \/
  ((k ∈ (sc_name <$> subcats)) /\
   exists pg', (scrape_loop has_text pg subcats m).1 !! k =
               Some (scrape_one has_text pg' k).1).
Proof.
  revert pg m. induction subcats as [|sc rest IH]; intros pg m.
  - left. split; [apply not_elem_of_nil|done].
  - cbn [scrape_loop fmap list_fmap].
    destruct (scrape_one has_text pg (sc_name sc)) as [r pg1] eqn:E.
    destruct (IH pg1 (<[sc_name sc := r]> m)) as [[Hk ->]|[Hk Hex]].
    + destruct (decide (sc_name sc = k)) as [<-|Hne].
      * right. split; [apply list_elem_of_here|].
        exists pg. by rewrite lookup_insert_eq, E.
      * left. split; [|by rewrite lookup_insert_ne].
        apply not_elem_of_cons. by split.
    + right. split; [by apply list_elem_of_further|done].
Qed.

Lemma scrape_loop_app (has_text : string -> node -> bool)
  (l1 l2 : list subcat) (pg : page) (m : gmap string rubric) :
  scrape_loop has_text pg (l1 ++ l2) m =
  scrape_loop has_text (scrape_loop has_text pg l1 m).2 l2
              (scrape_loop has_text pg l1 m).1.
Proof.
  revert pg m. induction l1 as [|sc l1 IH]; intros pg m; [done|].
  cbn [app scrape_loop].
  destruct (scrape_one has_text pg (sc_name sc)) as [r pg1]. apply IH.
Qed.

Lemma locate_headings (has_text : string -> node -> bool)
  (tag text : string) (root : node) :
  locate has_text tag text root = Resolution.headings has_text tag text root.
Proof.
  unfold locate, Resolution.headings. apply list_filter_iff.
  intros pn. by rewrite andb_true_iff.
Qed.

Lemma following_first_head (pred : node -> bool) (l : locator) (root : node) :
  following_first pred (first l) root =
  match head (l root) with
  | Some h => take 1 (filter (fun pn => pred pn.2 = true) (following root h.1))
  | None => []
  end.
Proof.
  unfold following_first, first.
  destruct (l root) as [|h k]; [done|].
  cbn [take mbind list_bind head]. by rewrite app_nil_r.
Qed.

Lemma click_near_toggle_first (header : locator) (pg : page) :
  click_near_toggle header pg =
  match following_first is_toggle header (dom pg) with
  | t :: _ => (click pg t.1).1
  | [] => pg
  end.
Proof.
  unfold click_near_toggle, count, first.
  by destruct (following_first is_toggle header (dom pg)) as [|t ts].
Qed.

(** One round of the reader on a resolved heading, in the words of
    [Resolution]. *)
Lemma round_on_heading (has_text : string -> node -> bool)
  (tag text : string) (pg : page) :
  read_rubric (first (locate has_text tag text))
    (click_near_toggle (first (locate has_text tag text)) pg) =
  Resolution.rubric_of has_text (tag, text)
    (Resolution.activated has_text pg (tag, text)).
Proof.
  assert (Hdom : dom (click_near_toggle (first (locate has_text tag text)) pg) =
                 Resolution.activated has_text pg (tag, text)).
  { rewrite click_near_toggle_first, following_first_head, locate_headings.
    unfold Resolution.activated, Resolution.heading, Resolution.first_after.
    cbn [fst snd].
    destruct (head (Resolution.headings has_text tag text (dom pg)))
      as [[p n]|]; [|done].
    cbn [fmap option_fmap option_map mbind option_bind fst].
    destruct (filter (fun pn => is_toggle pn.2 = true) (following (dom pg) p))
      as [|[t nt] ts]; [done|].
    cbn [take head mbind option_bind fst].
    unfold click. by destruct (script pg t (dom pg)). }
  unfold read_rubric, read_visible. rewrite Hdom.
  rewrite following_first_head, locate_headings.
  unfold global_fallback, first,
    Resolution.rubric_of, Resolution.heading, Resolution.first_after.
  cbn [fst snd].
  set (root := Resolution.activated has_text pg (tag, text)).
  destruct (head (Resolution.headings has_text tag text root)) as [[p n]|];
    cbn [fmap option_fmap option_map mbind option_bind fst].
  - destruct (filter (fun pn => is_rubric pn.2 = true) (following root p))
      as [|[b nb] bs]; cbn [take head mbind option_bind snd].
    + by destruct (filter (fun pn => is_rubric_div pn.2 = true) (elements root)).
    + destruct (is_visible nb); [done|].
      by destruct (filter (fun pn => is_rubric_div pn.2 = true) (elements root)).
  - by destruct (filter (fun pn => is_rubric_div pn.2 = true) (elements root)).
Qed.

Lemma resolve_header_step (has_text : string -> node -> bool) (root : node)
  (title : string) :
  match Resolution.step has_text title root with
  | Some q =>
      resolve_header has_text root title = locate has_text q.1 q.2 /\
      count (resolve_header has_text root title) root <> 0%nat
  | None => count (resolve_header has_text root title) root = 0%nat
  end.
Proof.
  unfold Resolution.step, resolve_header, count.
  rewrite <- !locate_headings.
  destruct (locate has_text "H3" title root) as [|a3 l3] eqn:E3.
  - cbn [length]. destruct (decide (0%nat = 0%nat)); [|done].
    destruct (locate has_text "H2" title root) as [|a2 l2] eqn:E2.
    + cbn [length]. destruct (decide (0%nat = 0%nat)); [|done].
      by destruct (locate has_text "H3" (colon_prefix title) root).
    + cbn [length]. destruct (decide (S (length l2) = 0%nat)); [done|].
      rewrite E2. cbn [length].
      destruct (decide (S (length l2) = 0%nat)); [done|].
      done.
  - cbn [length]. destruct (decide (S (length l3) = 0%nat)); [done|].
    rewrite E3. cbn [length].
    destruct (decide (S (length l3) = 0%nat)); [done|].
    split; [done|]. rewrite E3. done.
Qed.

Lemma scrape_one_recorded (has_text : string -> node -> bool) (pg : page)
  (title : string) :
  (scrape_one has_text pg title).1 = Resolution.recorded has_text pg title.
Proof.
  unfold scrape_one, Resolution.recorded.
  pose proof (resolve_header_step has_text (dom pg) title) as H.
  destruct (Resolution.step has_text title (dom pg)) as [[tag text]|].
  - destruct H as [-> Hc]. rewrite decide_False by done. cbn [fst].
    apply round_on_heading.
  - by rewrite decide_True.
Qed.

(** C8, as the code has it.  For every subcategory of the list, with the
    page of the representative company loaded and left by the rounds of the
    subcategories before it, the reader records under the full title what
    the three steps give in their order: a heading of rank [h3] whose text
    contains the title, else one of rank [h2] whose text contains the title,
    else one of rank [h3] whose text contains the part of the title before
    its first colon, the text being compared without regard to letter case
    and runs of whitespace.  The record is the visible rubric block after
    that heading once its control has been clicked, else the first rubric
    block of the document; both fields are absent when no step finds a
    heading, and when a heading is found but neither block can be read. *)
Theorem rubric_heading_resolution (w : site) (slug : string) (d : document)
  (before after : list subcat) (sc : subcat) :
  w (cell_url slug) = inr d ->
  sc_name sc ∉ sc_name <$> after ->
  exists rubrics,
    scrape_subcategory_rubrics has_text_ci w slug (before ++ sc :: after)
      = inr rubrics /\
    rubrics !! sc_name sc =
    Some (Resolution.recorded has_text_ci
            (scrape_loop has_text_ci (Page (doc_dom d) (doc_script d) [])
                         before ∅).2
            (sc_name sc)).
Proof.
  intros Hd Hafter. unfold scrape_subcategory_rubrics, goto.
  change (urljoin BASE ("cell/xai/" +:+ slug)) with (cell_url slug).
  rewrite Hd. cbn [mbind result_bind mret result_ret].
  eexists. split; [reflexivity|].
  rewrite scrape_loop_app.
  set (st := scrape_loop has_text_ci (Page (doc_dom d) (doc_script d) [])
                         before ∅).
  cbn [scrape_loop]. rewrite <- scrape_one_recorded.
  destruct (scrape_one has_text_ci st.2 (sc_name sc)) as [r pg1].
  destruct (scrape_loop_lookup has_text_ci after pg1
              (<[sc_name sc := r]> st.1) (sc_name sc)) as [[_ ->]|[Hin _]].
  - by rewrite lookup_insert_eq.
  - done.
Qed.

Lemma rubric_heading_resolution_witness :
  exists rubrics,
    scrape_subcategory_rubrics has_text_ci demo_site "planning"
      [Samples.named "Second";
       Samples.named "Evals: domains, quality, elicitation"] = inr rubrics /\
    rubrics !! "Evals: domains, quality, elicitation" =
      Some (Rubric (Some "desc-A") (Some "<p>desc-A</p>")) /\
    Resolution.step has_text_ci "Evals: domains, quality, elicitation"
      cell_collapsed = Some ("H3", "Evals").
Proof.
  destruct (rubric_heading_resolution demo_site "planning"
              (Document cell_collapsed toggle_script)
              [Samples.named "Second"] []
              (Samples.named "Evals: domains, quality, elicitation"))
    as (rubrics & Hrun & Hentry).
  - reflexivity.
  - apply not_elem_of_nil.
  - exists rubrics. split; [exact Hrun|]. split.
    + etrans; [exact Hentry|]. vm_compute. reflexivity.
    + vm_compute. reflexivity.
Defined.

(** C8, as stated, fails.  The title "evals" is looked for on a page whose
    only heading reads "All about EVALS".  No heading has the title, or its
    part before a colon, as its text, and the page has no rubric [div]: by
    the steps of the claim both fields are absent.  The reader finds the
    heading, which contains the title in capitals, and records the rubric
    that follows it. *)
Lemma rubric_heading_resolution_counterexample :
  exists rubrics,
    scrape_subcategory_rubrics has_text_ci Samples.loose_heading_site "planning"
      [Samples.named "evals"] = inr rubrics /\
    rubrics !! "evals" = Some (Rubric (Some "desc-X") (Some "<p>desc-X</p>")) /\
    Resolution.recorded Resolution.exact_title
      (Page Samples.loose_heading_dom inert_script []) "evals" = no_rubric.
Proof.
  eexists. split; [reflexivity|]. split; vm_compute; reflexivity.
Qed.

(** ** The representative page *)

(** C10.  The rubric scrape of a category depends on the site through one
    page only, the xAI cell page of the category's slug: two sites that
    serve the same document there give the same result, whatever the
    subcategories are and whatever else the sites serve, also for the pages
    of every other company. *)
Theorem rubrics_read_only_xai_cell_page (has_text : string -> node -> bool)
  (w1 w2 : site) (slug : string) (subcats : list subcat) :
  w1 ("https://ailabwatch.org/cell/xai/" +:+ slug) =
  w2 ("https://ailabwatch.org/cell/xai/" +:+ slug) ->
  scrape_subcategory_rubrics has_text w1 slug subcats =
  scrape_subcategory_rubrics has_text w2 slug subcats.
Proof.
  intros H. unfold scrape_subcategory_rubrics, goto.
  change (urljoin BASE ("cell/xai/" +:+ slug))
    with ("https://ailabwatch.org/cell/xai/" +:+ slug).
  by rewrite H.
Qed.

(** A site that serves the xAI cell pages of [demo_site] and nothing else. *)
Lemma rubrics_read_only_xai_cell_page_witness :
  scrape_subcategory_rubrics has_text_ci demo_site "planning"
    [Samples.named "Evals: domains, quality, elicitation";
     Samples.named "Second"] =
  scrape_subcategory_rubrics has_text_ci
    (fun u => if includes "/cell/xai/" u then demo_site u else inl PWError)
    "planning"
    [Samples.named "Evals: domains, quality, elicitation";
     Samples.named "Second"].
Proof.
  apply (rubrics_read_only_xai_cell_page has_text_ci demo_site
           (fun u => if includes "/cell/xai/" u then demo_site u else inl PWError)
           "planning"
           [Samples.named "Evals: domains, quality, elicitation";
            Samples.named "Second"]).
  reflexivity.
Defined.

(** ** The patterns on sample text *)

Example search_percent_first : Re.search_percent "score: 42 % of 7%" = Some 42%Z.
Proof. reflexivity. Qed.

Example search_percent_none : Re.search_percent "no digits %" = None.
Proof. reflexivity. Qed.

Example search_weighted_ignores_case :
  Re.search_weighted "x weighted  30% OF CATEGORY" = Some 30%Z.
Proof. reflexivity. Qed.

Example search_weighted_no_space_before_percent :
  Re.search_weighted "Weighted 30 % of category" = None.
Proof. reflexivity. Qed.

Example search_category_weight_after_title :
  Re.search_category_weight "Planning" "Misuse 9% weight planning
 12 % Weight" = Some 12%Z.
Proof. vm_compute. reflexivity. Qed.

Example search_label_pair_next_line :
  search_label_pair "xAI" "Image: xAI
55%" = Some 55%Z.
Proof. reflexivity. Qed.

Example class_tokens :
  tokens is_space_html " text-sm  links " = ["text-sm"; "links"].
Proof. reflexivity. Qed.

Example parse_category_page_named_heading :
  parse_category_page demo_site "planning" = inl TypeError.
Proof. vm_compute. reflexivity. Qed.

Example parse_category_page_no_named_heading :
  parse_category_page Samples.quiet_site "planning" = inr [].
Proof. vm_compute. reflexivity. Qed.

(** * Further properties of the code *)

Import Text Samples.

(** ** get_category_weights *)

Lemma foldl_insert_lookup (f : string -> option Z) (l : list (string * string))
  (m : gmap string (option Z)) (k : string) :
  foldl (fun (weights : gmap string (option Z)) st => <[st.2 := f st.2]> weights)
        m l !! k =
  if decide (k ∈ l.*2) then Some (f k) else m !! k.
Proof.
  revert m. induction l as [|[slug t] l IH]; intros m; [done|].
  cbn [foldl fmap list_fmap snd]. rewrite IH.
  destruct (decide (k ∈ l.*2)) as [Hin|Hnin].
  - rewrite decide_True; [done|]. by apply list_elem_of_further.
  - destruct (decide (t = k)) as [->|Hne].
    + rewrite lookup_insert_eq, decide_True; [done|]. apply list_elem_of_here.
    + rewrite lookup_insert_ne by done.
      rewrite decide_False; [done|].
      intros [?|?]%elem_of_cons; [congruence|done].
Qed.

(** X1.  When the overview page loads and has a body, the weights mapping
    has an entry for every configured category title and for nothing else;
    the entry is the result of the title's own search in the body text, the
    unknown value when the search finds nothing. *)
Theorem category_weights_entries (w : site) (weights : gmap string (option Z)) :
  get_category_weights w = inr weights ->
  exists d body,
    w (urljoin BASE "categories") = inr d /\
    body_text (doc_dom d) = inr body /\
    (forall slug title, (slug, title) ∈ CATEGORIES ->
       weights !! title = Some (Re.search_category_weight title body)) /\
    (forall k, k ∉ CATEGORIES.*2 -> weights !! k = None).
Proof.
  unfold get_category_weights, goto. generalize CATEGORIES. intros cats.
  destruct (w (urljoin BASE "categories")) as [e|d]; [done|].
  cbn [mbind result_bind mret result_ret dom].
  destruct (body_text (doc_dom d)) as [e|body] eqn:Eb; [done|].
  cbn [mbind result_bind]. intros ->%weights_loop_returns.
  exists d, body. split; [done|]. split; [done|]. split.
  - intros slug title Hin.
    rewrite (foldl_insert_lookup (fun t => Re.search_category_weight t body)).
    rewrite decide_True; [done|].
    by apply (list_elem_of_fmap_2 snd _ (slug, title)).
  - intros k Hk.
    rewrite (foldl_insert_lookup (fun t => Re.search_category_weight t body)).
    by rewrite decide_False.
Qed.

Lemma category_weights_entries_witness :
  exists weights,
    get_category_weights demo_site = inr weights /\
    weights !! "Planning" = Some (Some 12%Z) /\
    weights !! "Misuse prevention" = Some None /\
    weights !! "Evals" = None.
Proof.
  destruct (get_category_weights demo_site) as [e|weights] eqn:E.
  - vm_compute in E. discriminate.
  - exists weights. split; [reflexivity|].
    destruct (category_weights_entries demo_site weights E)
      as (d & body & Hd & Hb & Hin & Hout).
    injection Hd as <-. injection Hb as <-.
    split; [|split].
    + rewrite (Hin "planning" "Planning"); [reflexivity|].
      unfold CATEGORIES. do 6 apply list_elem_of_further. apply list_elem_of_here.
    + rewrite (Hin "misuse" "Misuse prevention"); [reflexivity|].
      unfold CATEGORIES. do 3 apply list_elem_of_further. apply list_elem_of_here.
    + apply Hout. vm_compute. intros H.
      repeat (apply elem_of_cons in H as [H|H]; [discriminate|]).
      by apply elem_of_nil in H.
Defined.

Lemma lazy_window_found (n : nat) (s : string) (v : Z) :
  Re.lazy_window n s = Some v ->
  exists k, (k <= n)%nat /\ Re.weight_tail_at (skip k s) = Some v /\
            forall j, (j < k)%nat -> Re.weight_tail_at (skip j s) = None.
Proof.
  revert s. induction n as [|n IH]; intros s; cbn [Re.lazy_window].
  - destruct (Re.weight_tail_at s) as [v'|] eqn:E; [|by destruct s].
    intros [= <-]. exists 0%nat. split; [lia|]. split; [by destruct s|].
    intros j Hj. lia.
  - destruct (Re.weight_tail_at s) as [v'|] eqn:E.
    + intros [= <-]. exists 0%nat. split; [lia|]. split; [by destruct s|].
      intros j Hj. lia.
    + destruct s as [|c r]; [done|]. intros (k & Hk & Hv & Hmin)%IH.
      exists (S k). split; [lia|]. split; [done|].
      intros [|j] Hj; [done|]. cbn [skip]. apply Hmin. lia.
Qed.

Lemma lazy_window_not_found (n : nat) (s : string) :
  Re.lazy_window n s = None ->
  forall k, (k <= n)%nat -> Re.weight_tail_at (skip k s) = None.
Proof.
  revert s. induction n as [|n IH]; intros s; cbn [Re.lazy_window].
  - destruct (Re.weight_tail_at s) as [v'|] eqn:E; [done|].
    intros _ k Hk. assert (k = 0)%nat as -> by lia. by destruct s.
  - destruct (Re.weight_tail_at s) as [v'|] eqn:E; [done|].
    destruct s as [|c r].
    + intros _ k _. by destruct k.
    + intros Hr [|k] Hk; [done|]. cbn [skip]. apply (IH r Hr). lia.
Qed.

(** X2.  At an occurrence of a category title, the weight taken is the
    nearest "<digits> % weight" that starts at most 300 characters after the
    title; when none starts within those 300 characters the occurrence
    gives nothing, however many follow further on. *)
Theorem category_weight_within_300 (title s : string) :
  match Re.category_weight_at title s with
  | Some v =>
      exists r k,
        strip_prefix eq_ci title s = Some r /\ (k <= 300)%nat /\
        Re.weight_tail_at (skip k r) = Some v /\
        forall j, (j < k)%nat -> Re.weight_tail_at (skip j r) = None
  | None =>
      forall r, strip_prefix eq_ci title s = Some r ->
        forall k, (k <= 300)%nat -> Re.weight_tail_at (skip k r) = None
  end.
Proof.
  unfold Re.category_weight_at.
  destruct (strip_prefix eq_ci title s) as [r|]; [|done].
  cbn [mbind option_bind].
  destruct (Re.lazy_window 300 r) as [v|] eqn:E.
  - destruct (lazy_window_found 300 r v E) as (k & Hk & Hv & Hmin).
    cbv beta iota. by exists r, k.
  - cbv beta iota. intros r' [= <-]. by apply lazy_window_not_found.
Qed.

(** ** parse_category_page *)

(** X3.  On a category page that loads, [parse_category_page] raises
    [TypeError] as soon as the page has an [h2] whose stripped text is not
    empty: the scores call hands three arguments to [page.evaluate], which
    takes one.  It returns only when every [h2] is blank, or there is none,
    and then it returns the empty list: no subcategory record is ever
    returned. *)
Theorem parse_category_page_type_error (w : site) (slug : string)
  (d : document) :
  w (category_url slug) = inr d ->
  parse_category_page w slug =
  if decide (Forall blank_heading (by_tag "H2" (doc_dom d)))
  then inr [] else inl TypeError.
Proof.
  intros Hd. unfold parse_category_page, goto.
  change (urljoin BASE ("categories/" +:+ slug)) with (category_url slug).
  rewrite Hd. cbn [mbind result_bind mret result_ret dom].
  apply parse_headers_result.
Qed.

Lemma parse_category_page_type_error_witness :
  parse_category_page
    (fun _ => inr (Document blank_heading_dom inert_script)) "planning"
    = inl TypeError /\
  parse_category_page quiet_site "planning" = inr [].
Proof.
  split.
  - rewrite (parse_category_page_type_error _ "planning"
               (Document blank_heading_dom inert_script) eq_refl).
    apply decide_False. intros Hall. apply Forall_inv in Hall.
    vm_compute in Hall. discriminate.
  - rewrite (parse_category_page_type_error quiet_site "planning"
               (Document bare_dom inert_script) eq_refl).
    apply decide_True. repeat constructor.
Defined.

(** X4.  A heading with no element after it under its parent gets the
    unknown weight, an empty region, and the unknown score for every
    company. *)
Theorem heading_without_followers (root : node) (h2 : path) (slug : string) :
  next_element_siblings root h2 = [] ->
  get_weight_js root h2 = None /\
  regionNodes root h2 = [] /\
  extract_scores_js root h2 slug COMPANY_SLUG =
    (fun kv => (kv.1, None)) <$> COMPANY_SLUG.
Proof.
  intros H. unfold get_weight_js, extract_scores_js, region_of, regionNodes.
  rewrite H. done.
Qed.

Lemma heading_without_followers_witness :
  get_weight_js lonely_heading_dom [0; 1]%nat = None /\
  extract_scores_js lonely_heading_dom [0; 1]%nat "planning" COMPANY_SLUG =
    (fun kv => (kv.1, None)) <$> COMPANY_SLUG.
Proof.
  destruct (heading_without_followers lonely_heading_dom [0; 1]%nat "planning")
    as (Hw & _ & Hs); [reflexivity|].
  by split.
Defined.

(** X5.  The scores of a heading are those of the block between it and the
    next sibling [h2]: with the children of the parent split as in the
    region slicer, the scores are computed from the elements of [mid] alone,
    so nothing before the heading and nothing from the next heading on can
    change them. *)
Theorem scores_depend_on_own_block (root : node) (q : path) (a : attrs)
  (pre mid rest : list node) (H : node) (slug : string)
  (companySlugMap : list (string * string)) :
  get root q = Some (Elem a (pre ++ H :: mid ++ rest)) ->
  has_tag "H2" H = true ->
  Forall (fun n => same_rank H n = false) mid ->
  match rest with [] => True | n :: _ => same_rank H n = true end ->
  extract_scores_js root (q ++ [length pre]) slug companySlugMap =
  (fun kv =>
     (kv.1, company_score
              (detached_div (filter (fun n => is_element n = true) mid))
              slug kv.2)) <$> companySlugMap.
Proof.
  intros Hq HH Hmid Hrest.
  unfold extract_scores_js, region_of, regionNodes.
  rewrite (next_element_siblings_child _ _ _ _ _ Hq).
  replace (drop (S (length pre)) (pre ++ H :: mid ++ rest)) with (mid ++ rest).
  - by rewrite (take_until_h2_between H).
  - rewrite (cons_middle H), app_assoc.
    rewrite drop_app_length'; [done|]. rewrite length_app. simpl. lia.
Qed.

Lemma scores_depend_on_own_block_witness :
  extract_scores_js category_dom [0; 0]%nat "planning" COMPANY_SLUG =
  (fun kv =>
     (kv.1, company_score
              (detached_div (filter (fun n => is_element n = true) first_block))
              "planning" kv.2)) <$> COMPANY_SLUG.
Proof.
  refine (scores_depend_on_own_block category_dom [0%nat]
            (Attrs "BODY" EmptyString None "Planning 12 % weight"
               "Planning 12 % weight" true)
            [] first_block second_block first_heading "planning" COMPANY_SLUG
            _ _ _ _).
  - reflexivity.
  - reflexivity.
  - repeat constructor.
  - reflexivity.
Defined.

(** X6.  The weight parser does not stop at the next heading.  For a
    heading directly followed by the next [h2] (no element between them)
    whose own text is not a weight line: whenever that next heading finds
    its weight among its first 7 siblings, the first heading reports the
    very same weight. *)
Theorem weight_scan_crosses_headings (root : node) (q : path) (a : attrs)
  (pre mid rest : list node) (H H' : node) (v : Z) :
  get root q = Some (Elem a (pre ++ H :: mid ++ H' :: rest)) ->
  Forall (fun n => is_element n = false) mid ->
  is_element H' = true ->
  Re.search_weighted (trim is_space_js (inner_text H')) = None ->
  weight_in_window 7 root (q ++ [S (length pre + length mid)]) = Some v ->
  get_weight_js root (q ++ [length pre]) = Some v /\
  get_weight_js root (q ++ [S (length pre + length mid)]) = Some v.
Proof.
  intros Hq Hmid HH' Hown Hnext.
  assert (Hchain' : next_element_siblings root (q ++ [S (length pre + length mid)]) =
            element_siblings_from q (S (S (length pre + length mid))) rest).
  { rewrite (next_element_siblings_child _ _ _ _ _ Hq). f_equal.
    replace (pre ++ H :: mid ++ H' :: rest)
      with ((pre ++ H :: mid ++ [H']) ++ rest)
      by (by rewrite <- !app_assoc; cbn; rewrite <- !app_assoc).
    rewrite drop_app_length'; [done|].
    rewrite !length_app. cbn. rewrite length_app. cbn. lia. }
  assert (Hchain : next_element_siblings root (q ++ [length pre]) =
            (q ++ [S (length pre + length mid)], H') ::
            element_siblings_from q (S (S (length pre + length mid))) rest).
  { rewrite (next_element_siblings_child _ _ _ _ _ Hq).
    replace (drop (S (length pre)) (pre ++ H :: mid ++ H' :: rest))
      with (mid ++ H' :: rest).
    2:{ rewrite (cons_middle H), app_assoc.
        rewrite drop_app_length'; [done|]. rewrite length_app. simpl. lia. }
    clear -Hmid HH'. generalize (length pre). intros i.
    revert i. induction Hmid as [|x mid Hx _ IH]; intros i.
    - cbn. destruct H'; [done|]. by rewrite Nat.add_0_r.
    - destruct x; [|done]. cbn [app element_siblings_from length].
      rewrite IH. by rewrite Nat.add_succ_r. }
  unfold weight_in_window in Hnext. rewrite Hchain' in Hnext.
  split.
  - unfold get_weight_js. rewrite weight_scan_window, Hchain.
    change 8%nat with (S 7). cbn [take fmap list_fmap first_some snd].
    by rewrite Hown.
  - unfold get_weight_js. rewrite weight_scan_window, Hchain'.
    set (f := fun pn : path * node =>
                Re.search_weighted (trim is_space_js (inner_text pn.2))) in *.
    clear -Hnext. revert Hnext.
    generalize (element_siblings_from q (S (S (length pre + length mid))) rest).
    intros l. change 8%nat with (7 + 1)%nat.
    rewrite <- (take_drop 7 (take (7 + 1) l)), take_take, fmap_app.
    replace (7 `min` (7 + 1))%nat with 7%nat by lia.
    rewrite first_some_app. by intros ->.
Qed.

Lemma weight_scan_crosses_headings_witness :
  get_weight_js adjacent_headings_dom [0; 0]%nat = Some 40%Z /\
  get_weight_js adjacent_headings_dom [0; 2]%nat = Some 40%Z.
Proof.
  refine (weight_scan_crosses_headings adjacent_headings_dom [0%nat]
            (Attrs "BODY" EmptyString None "Planning 12 % weight"
               "Planning 12 % weight" true)
            [] [Text " "] [para "Weighted 40% of category"]
            (h2 "First") (h2 "Second") 40%Z _ _ _ _ _).
  - reflexivity.
  - repeat constructor.
  - reflexivity.
  - reflexivity.
  - reflexivity.
Defined.

(** ** The last-resort probe of extract_scores_js *)

Lemma append_nil_l (b : string) : EmptyString +:+ b = b.
Proof. reflexivity. Qed.

Lemma append_cons (x : ascii) (a b : string) :
  String x a +:+ b = String x (a +:+ b).
Proof. reflexivity. Qed.

Lemma append_nil_r (a : string) : a +:+ EmptyString = a.
Proof. induction a as [|x a IH]; [done|]. by rewrite append_cons, IH. Qed.

Lemma string_app_assoc (a b c : string) : (a +:+ b) +:+ c = a +:+ (b +:+ c).
Proof.
  induction a as [|x a IH]; [done|]. by rewrite !append_cons, IH.
Qed.

Lemma span_app_stop (p : ascii -> bool) (s t a b : string) :
  span p s = (a, b) -> b <> EmptyString -> span p (s +:+ t) = (a, b +:+ t).
Proof.
  revert a b. induction s as [|c r IH]; intros a b.
  - by intros [= <- <-].
  - rewrite append_cons. cbn [span]. destruct (p c) eqn:Ec.
    + destruct (span p r) as [a' b'] eqn:Er. intros [= <- <-] Hb.
      by rewrite (IH a' b' eq_refl Hb).
    + by intros [= <- <-] _.
Qed.

Lemma percent_at_app (s t : string) (v : Z) :
  Re.percent_at s = Some v -> Re.percent_at (s +:+ t) = Some v.
Proof.
  unfold Re.percent_at, Re.digits1, drop_while.
  destruct (span is_digit s) as [d r] eqn:Ed.
  destruct d as [|c d]; [done|]. cbn [mbind option_bind].
  destruct (span is_space_js r) as [ws r'] eqn:Es. cbn [snd].
  destruct r' as [|x r']; [done|]. intros Hv.
  assert (Hr : r <> EmptyString) by (intros ->; simpl in Es; congruence).
  rewrite (span_app_stop is_digit s t _ _ Ed Hr). cbn [mbind option_bind].
  rewrite (span_app_stop is_space_js r t _ _ Es) by done.
  rewrite append_cons. cbn [snd].
  destruct x as [[] [] [] [] [] [] [] []]; done.
Qed.

Lemma search_percent_app_r (s t : string) :
  is_Some (Re.search_percent s) -> is_Some (Re.search_percent (s +:+ t)).
Proof.
  induction s as [|c r IH].
  - intros [v Hv]. by vm_compute in Hv.
  - rewrite append_cons. cbn [Re.search_percent].
    destruct (Re.percent_at (String c r)) as [v|] eqn:E.
    + intros _. rewrite <- append_cons, (percent_at_app _ t v E). eauto.
    + intros H. destruct (Re.percent_at (String c (r +:+ t))); eauto.
Qed.

Lemma search_percent_app_l (p s : string) :
  is_Some (Re.search_percent s) -> is_Some (Re.search_percent (p +:+ s)).
Proof.
  intros H. induction p as [|c p IH]; [done|].
  rewrite append_cons. cbn [Re.search_percent].
  destruct (Re.percent_at (String c (p +:+ s))); eauto.
Qed.

Lemma textContent_children (a : attrs) (kids : list node) (i : nat) (k : node) :
  kids !! i = Some k ->
  exists pre post, textContent (Elem a kids) = pre +:+ (textContent k +:+ post).
Proof.
  revert i. induction kids as [|x kids IH]; intros i; [done|].
  destruct i as [|i]; cbn [lookup list_lookup].
  - intros [= ->]. exists EmptyString. eexists. reflexivity.
  - intros (pre & post & Hk)%IH. exists (textContent x +:+ pre), post.
    rewrite string_app_assoc. rewrite <- Hk. reflexivity.
Qed.

Lemma textContent_descendant (n m : node) (p : path) :
  get n p = Some m ->
  exists pre post, textContent n = pre +:+ (textContent m +:+ post).
Proof.
  revert n. induction p as [|i p IH]; intros n; cbn [get].
  - intros [= ->]. exists EmptyString, EmptyString.
    by rewrite append_nil_l, append_nil_r.
  - destruct n as [|a kids]; [done|].
    destruct (kids !! i) as [k|] eqn:Ek; [|done]. cbn [mbind option_bind].
    intros (pre & post & Hm)%IH.
    destruct (textContent_children a kids i k Ek) as (pre' & post' & Hk).
    exists (pre' +:+ pre), (post +:+ post').
    rewrite Hk, Hm. by rewrite !string_app_assoc.
Qed.

Lemma get_app (n : node) (p k : path) :
  get n (p ++ k) = c ← get n p; get c k.
Proof.
  revert n. induction p as [|i p IH]; intros n; [done|].
  cbn [app get]. destruct n as [|a kids]; [done|].
  destruct (kids !! i) as [x|]; [|done]. cbn [mbind option_bind]. apply IH.
Qed.

Lemma parentElement_prefix (p q : path) :
  parentElement p = Some q -> q `prefix_of` p.
Proof.
  destruct p as [|i p]; [done|]. intros [= <-].
  exists [List.last (i :: p) 0%nat]. by apply app_removelast_last.
Qed.

Lemma climb_prefix (region : node) (budget : nat) (c p : path) :
  climb region budget (Some c) = Some p -> p `prefix_of` c.
Proof.
  revert c. induction budget as [|b IH]; intros c; cbn [climb].
  - by intros [= ->].
  - destruct (isCardish (get region c)); [by intros [= ->]|].
    destruct (parentElement c) as [q|] eqn:Eq; [|by destruct b].
    intros Hp%IH. etrans; [exact Hp|]. by apply parentElement_prefix.
Qed.

Lemma closest_from_prefix (region : node) (budget : nat) (c p : path) :
  closest_from region budget c = Some p -> p `prefix_of` c.
Proof.
  revert c. induction budget as [|b IH]; intros c; cbn [closest_from]; [done|].
  destruct (get region c) as [n|]; [|done].
  destruct (closest_selector n); [by intros [= ->]|].
  destruct (parentElement c) as [q|] eqn:Eq; [|done]. cbn [mbind option_bind].
  intros Hp%IH. etrans; [exact Hp|]. by apply parentElement_prefix.
Qed.

Lemma container_of_prefix (region : node) (a : path) :
  container_of region a `prefix_of` a.
Proof.
  unfold container_of.
  destruct (climb region 6 (Some a)) as [c|] eqn:Ec; [by eapply climb_prefix|].
  unfold closest.
  destruct (closest_from region (S (length a)) a) as [c|] eqn:Ecl;
    [by eapply closest_from_prefix|].
  destruct (parentElement a) as [c|] eqn:Ep; [by apply parentElement_prefix|].
  done.
Qed.

Lemma container_none_anchor_none (region : node) (a : path) :
  tier_container region a = None -> tier_anchor region a = None.
Proof.
  unfold tier_container, tier_anchor, tryNode. intros Hc.
  destruct (get region a) as [m|] eqn:Ea; [|done].
  destruct (container_of_prefix region a) as [k Hk].
  rewrite Hk, get_app in Ea.
  destruct (get region (container_of region a)) as [c|] eqn:Eget; [|done].
  cbn [mbind option_bind] in Ea.
  destruct (textContent_descendant c m k Ea) as (pre & post & Htext).
  rewrite Htext in Hc.
  destruct (Re.search_percent (textContent m)) as [v|] eqn:Em; [|done].
  assert (Hsome : is_Some (Re.search_percent (pre +:+ (textContent m +:+ post)))).
  { apply search_percent_app_l, search_percent_app_r. rewrite Em. eauto. }
  rewrite Hc in Hsome. by destruct Hsome.
Qed.

(** X7.  In [extract_scores_js] the last resort, scanning the reference
    itself, never decides a score: the container that was scanned first is
    the reference or one of its ancestors, so whenever the container's text
    has no percentage the reference's text has none either.  The score of a
    company is decided by the containers and their siblings alone. *)
Theorem anchor_probe_never_decides (region : node) (categorySlug cslug : string) :
  (forall a, tier_container region a = None -> tier_anchor region a = None) /\
  company_score region categorySlug cslug =
  first_some
    (a ← fst <$> querySelectorAll (anchor_selector cslug categorySlug) region;
     [tier_container region a; tier_siblings region a]).
Proof.
  split; [apply container_none_anchor_none|].
  rewrite company_score_probes. unfold code_order_probes.
  induction (fst <$> querySelectorAll (anchor_selector cslug categorySlug) region)
    as [|a l IH]; [done|].
  cbn [mbind list_bind]. rewrite !first_some_app, IH. cbn [first_some].
  destruct (tier_container region a) as [v|] eqn:Ec; [done|].
  destruct (tier_siblings region a) as [v|]; [done|].
  by rewrite (container_none_anchor_none region a Ec).
Qed.

(** ** click_near_toggle and the rubric loop *)

Lemma click_near_toggle_effect (header : locator) (pg : page) :
  clicks (click_near_toggle header pg) =
    clicks pg ++ (fst <$> take 1 (following_first is_toggle header (dom pg))) /\
  script (click_near_toggle header pg) = script pg /\
  (following_first is_toggle header (dom pg) = [] ->
   click_near_toggle header pg = pg).
Proof.
  unfold click_near_toggle, count, first.
  destruct (following_first is_toggle header (dom pg)) as [|[t n] l] eqn:E.
  - cbn. by rewrite app_nil_r.
  - rewrite decide_False by done. cbn [take fmap list_fmap fst].
    unfold click. destruct (script pg t (dom pg)); cbn; done.
Qed.

(** X8.  One activation attempts at most one click: the click log grows by
    the first toggle control that follows the heading, by nothing when
    there is none, in which case the page is handed back untouched; the
    page's script is never replaced. *)
Theorem click_near_toggle_log (header : locator) (pg : page) :
  clicks (click_near_toggle header pg) =
    clicks pg ++ (fst <$> take 1 (following_first is_toggle header (dom pg))) /\
  script (click_near_toggle header pg) = script pg /\
  (following_first is_toggle header (dom pg) = [] ->
   click_near_toggle header pg = pg).
Proof. apply click_near_toggle_effect. Qed.

Lemma scrape_one_log (has_text : string -> node -> bool) (pg : page)
  (title : string) :
  script (scrape_one has_text pg title).2 = script pg /\
  exists new, clicks (scrape_one has_text pg title).2 = clicks pg ++ new /\
              (length new <= 1)%nat.
Proof.
  unfold scrape_one.
  destruct (decide (count (resolve_header has_text (dom pg) title) (dom pg) = 0%nat)).
  - split; [done|]. exists []. rewrite app_nil_r. split; [done|cbn; lia].
  - cbn [snd].
    destruct (click_near_toggle_effect
                (first (resolve_header has_text (dom pg) title)) pg)
      as (Hc & Hs & _).
    split; [done|]. eexists. split; [exact Hc|].
    rewrite length_fmap, length_take. lia.
Qed.

(** X9.  Over a whole rubric loop the click log only grows, by at most one
    click per subcategory, and the page keeps its script. *)
Theorem scrape_loop_clicks (has_text : string -> node -> bool)
  (subcats : list subcat) (pg : page) (rubrics : gmap string rubric) :
  script (scrape_loop has_text pg subcats rubrics).2 = script pg /\
  exists new,
    clicks (scrape_loop has_text pg subcats rubrics).2 = clicks pg ++ new /\
    (length new <= length subcats)%nat.
Proof.
  revert pg rubrics. induction subcats as [|sc rest IH]; intros pg rubrics.
  - split; [done|]. exists []. rewrite app_nil_r. split; [done|cbn; lia].
  - cbn [scrape_loop].
    destruct (scrape_one_log has_text pg (sc_name sc)) as (Hs & new1 & Hc & Hl).
    destruct (scrape_one has_text pg (sc_name sc)) as [r pg1].
    cbn [snd] in Hs, Hc.
    destruct (IH pg1 (<[sc_name sc := r]> rubrics)) as (Hs' & new2 & Hc' & Hl').
    split; [by rewrite Hs'|].
    exists (new1 ++ new2). rewrite Hc', Hc, app_assoc. split; [done|].
    rewrite length_app. cbn [length]. lia.
Qed.

(** X10.  When the cell page loads, the rubrics mapping has an entry for
    exactly the names of the subcategories it was given: none is missing,
    nothing else is stored, and for no subcategories it is empty.  When the
    cell page does not load the call raises, also for no subcategories. *)
Theorem rubrics_keys (has_text : string -> node -> bool) (w : site)
  (slug : string) (subcats : list subcat) :
  match w (cell_url slug) with
  | inr _ =>
      exists rubrics,
        scrape_subcategory_rubrics has_text w slug subcats = inr rubrics /\
        base.dom rubrics = list_to_set (sc_name <$> subcats)
  | inl e => scrape_subcategory_rubrics has_text w slug subcats = inl e
  end.
Proof.
  unfold scrape_subcategory_rubrics, goto.
  change (urljoin BASE ("cell/xai/" +:+ slug)) with (cell_url slug).
  destruct (w (cell_url slug)) as [e|d]; [done|].
  cbn [mbind result_bind mret result_ret]. eexists. split; [done|].
  apply set_eq. intros k. rewrite elem_of_dom, elem_of_list_to_set.
  destruct (scrape_loop_lookup has_text subcats
              (Page (doc_dom d) (doc_script d) []) ∅ k) as [[Hk ->]|[Hk [pg' ->]]].
  - rewrite lookup_empty. split; [by intros [? ?]|done].
  - split; [done|eauto].
Qed.

(** ** Rubric fields come in pairs *)

Lemma read_rubric_paired (h : locator) (pg : page) :
  is_Some (description (read_rubric h pg)) <->
  is_Some (description_html (read_rubric h pg)).
Proof.
  unfold read_rubric, read_visible, global_fallback, first.
  destruct (following_first is_rubric h (dom pg)) as [|pn l].
  - destruct (take 1 _) as [|? ?]; cbn; split; eauto; by intros [? ?].
  - destruct (is_visible pn.2); [cbn; split; eauto|].
    destruct (take 1 _) as [|? ?]; cbn; split; eauto; by intros [? ?].
Qed.

Lemma scrape_one_paired (has_text : string -> node -> bool) (pg : page)
  (title : string) :
  is_Some (description (scrape_one has_text pg title).1) <->
  is_Some (description_html (scrape_one has_text pg title).1).
Proof.
  unfold scrape_one. case_decide.
  - cbn. split; by intros [? ?].
  - apply read_rubric_paired.
Qed.

(** X11.  In every entry of the mapping [scrape_subcategory_rubrics]
    returns the two rubric fields are both present or both absent: there is
    never a description without its markup, nor markup without a
    description. *)
Theorem description_fields_paired (has_text : string -> node -> bool)
  (w : site) (slug : string) (subcats : list subcat)
  (rubrics : gmap string rubric) (title : string) (r : rubric) :
  scrape_subcategory_rubrics has_text w slug subcats = inr rubrics ->
  rubrics !! title = Some r ->
  is_Some (description r) <-> is_Some (description_html r).
Proof.
  unfold scrape_subcategory_rubrics.
  destruct (goto w _) as [e|pg0]; [done|].
  cbn [mbind result_bind mret result_ret]. intros [= <-].
  destruct (scrape_loop_lookup has_text subcats pg0 ∅ title)
    as [[_ ->]|[_ [pg' ->]]].
  - by rewrite lookup_empty.
  - intros [= <-]. apply scrape_one_paired.
Qed.

Lemma description_fields_paired_witness :
  exists rubrics,
    scrape_subcategory_rubrics has_text_ci demo_site "planning"
      [named "Evals: domains, quality, elicitation"; named "Second"]
      = inr rubrics /\
    rubrics !! "Evals: domains, quality, elicitation" =
      Some (Rubric (Some "desc-A") (Some "<p>desc-A</p>")) /\
    rubrics !! "Second" = Some no_rubric /\
    (is_Some (Some "desc-A") <-> is_Some (Some "<p>desc-A</p>")).
Proof.
  destruct (scrape_subcategory_rubrics has_text_ci demo_site "planning"
              [named "Evals: domains, quality, elicitation"; named "Second"])
    as [e|rubrics] eqn:E.
  - vm_compute in E. discriminate.
  - assert (H1 : rubrics !! "Evals: domains, quality, elicitation" =
                 Some (Rubric (Some "desc-A") (Some "<p>desc-A</p>")))
      by (vm_compute in E; injection E as <-; vm_compute; reflexivity).
    assert (H2 : rubrics !! "Second" = Some no_rubric)
      by (vm_compute in E; injection E as <-; vm_compute; reflexivity).
    exists rubrics. split; [reflexivity|]. split; [exact H1|].
    split; [exact H2|].
    exact (description_fields_paired has_text_ci demo_site "planning" _
             rubrics _ _ E H1).
Defined.

(** ** build_dataset: shape, success and failure *)

Lemma assemble_no_subcategories (title : string)
  (cat_weights : gmap string (option Z)) (rubrics : gmap string rubric) :
  assemble title cat_weights [] rubrics =
  Category title (mjoin (cat_weights !! title)) [].
Proof. reflexivity. Qed.

Lemma build_loop_shape (has_text : string -> node -> bool) (w : site)
  (cat_weights : gmap string (option Z)) (cats : list (string * string))
  (out res : list category) :
  build_loop has_text w cat_weights cats out = inr res ->
  res = out ++
        ((fun st => Category st.2 (mjoin (cat_weights !! st.2)) []) <$> cats).
Proof.
  revert out. induction cats as [|[slug title] cats IH]; intros out;
    cbn [build_loop].
  - intros [= <-]. by rewrite app_nil_r.
  - destruct (parse_category_page w slug) as [e|subcats] eqn:Ep; [done|].
    apply parse_category_page_inv in Ep as [-> _].
    cbn [mbind result_bind].
    destruct (scrape_subcategory_rubrics has_text w slug [])
      as [e|rubrics] eqn:Es; [done|].
    cbn [mbind result_bind]. intros ->%IH.
    rewrite assemble_no_subcategories, <- app_assoc. done.
Qed.

(** X12.  A dataset [build_dataset] returns has one record per configured
    category, in the configured order and under the configured title, with
    the weight found for that title on the overview page; the list of
    subcategories of every record is empty, since [parse_category_page]
    returns no record. *)
Theorem build_dataset_shape (has_text : string -> node -> bool) (w : site)
  (cats : list category) :
  build_dataset has_text w = inr cats ->
  exists weights,
    get_category_weights w = inr weights /\
    cats = (fun st => Category st.2 (mjoin (weights !! st.2)) []) <$> CATEGORIES.
Proof.
  unfold build_dataset.
  destruct (get_category_weights w) as [e|weights]; [done|].
  cbn [mbind result_bind]. intros ->%build_loop_shape. by exists weights.
Qed.

Lemma build_dataset_shape_witness :
  build_dataset has_text_ci quiet_site =
  inr [ Category "Risk assessment" None [];
        Category "Scheming risk prevention" None [];
        Category "Boosting safety research" None [];
        Category "Misuse prevention" None [];
        Category "Prep for extreme security" None [];
        Category "Risk info sharing" None [];
        Category "Planning" (Some 12%Z) [] ].
Proof.
  destruct (build_dataset has_text_ci quiet_site) as [e|cats] eqn:E.
  - vm_compute in E. discriminate.
  - destruct (build_dataset_shape has_text_ci quiet_site cats E)
      as (weights & Hw & ->).
    vm_compute in Hw. injection Hw as <-. vm_compute. reflexivity.
Defined.

Lemma weights_loop_succeeds (body : string) (cats : list (string * string))
  (m : gmap string (option Z)) :
  (forall st digits, st ∈ cats ->
     Re.search_category_digits st.2 body = Some digits ->
     (String.length digits <= Python.max_str_digits)%nat) ->
  exists res, weights_loop body cats m = inr res.
Proof.
  revert m. induction cats as [|[slug title] cats IH]; intros m H.
  - by exists m.
  - cbn [weights_loop].
    destruct (Re.search_category_digits title body) as [digits|] eqn:E.
    + unfold Python.int. rewrite decide_True
        by (apply (H (slug, title)); [apply list_elem_of_here|done]).
      cbn [mbind result_bind mret result_ret]. apply IH.
      intros st dg Hst. apply H. by apply list_elem_of_further.
    + cbn [mbind result_bind]. apply IH.
      intros st dg Hst. apply H. by apply list_elem_of_further.
Qed.

Lemma build_loop_succeeds (has_text : string -> node -> bool) (w : site)
  (cat_weights : gmap string (option Z)) (cats : list (string * string))
  (out : list category) :
  (forall st, st ∈ cats ->
     (exists d, w (category_url st.1) = inr d /\
                Forall blank_heading (by_tag "H2" (doc_dom d))) /\
     (exists d, w (cell_url st.1) = inr d)) ->
  exists res,
    build_loop has_text w cat_weights cats out = inr res /\
    length res = (length out + length cats)%nat.
Proof.
  revert out. induction cats as [|[slug title] cats IH]; intros out H.
  - exists out. split; [done|]. cbn. lia.
  - cbn [build_loop].
    destruct (H (slug, title) (list_elem_of_here _ _))
      as [(d & Hd & Hblank) [d' Hd']].
    cbn [fst] in Hd, Hd'.
    unfold parse_category_page at 1, goto.
    change (urljoin BASE ("categories/" +:+ slug)) with (category_url slug).
    rewrite Hd. cbn [mbind result_bind mret result_ret dom].
    rewrite parse_headers_result, decide_True by done.
    cbn [mbind result_bind].
    unfold scrape_subcategory_rubrics at 1, goto.
    change (urljoin BASE ("cell/xai/" +:+ slug)) with (cell_url slug).
    rewrite Hd'. cbn [mbind result_bind mret result_ret].
    edestruct IH as (res & -> & Hlen).
    { intros st Hst. apply H. by apply list_elem_of_further. }
    exists res. split; [done|]. rewrite Hlen, length_app. cbn. lia.
Qed.

(** X13.  [build_dataset] returns a dataset, of seven records, when every
    page a run loads is served, the overview page has a body in which no
    weight found for a category runs to more than 4300 digits, and no
    category page has an [h2] with text. *)
Theorem build_dataset_succeeds (has_text : string -> node -> bool) (w : site) :
  (forall u, u ∈ fetched_urls -> exists d, w u = inr d) ->
  (forall d, w (urljoin BASE "categories") = inr d ->
     exists body, body_text (doc_dom d) = inr body /\
       forall st digits, st ∈ CATEGORIES ->
         Re.search_category_digits st.2 body = Some digits ->
         (String.length digits <= Python.max_str_digits)%nat) ->
  (forall st d, st ∈ CATEGORIES -> w (category_url st.1) = inr d ->
     Forall blank_heading (by_tag "H2" (doc_dom d))) ->
  exists cats, build_dataset has_text w = inr cats /\ length cats = 7%nat.
Proof.
  intros Hload Hbody Hblank. unfold build_dataset, get_category_weights, goto.
  destruct (Hload (urljoin BASE "categories") (list_elem_of_here _ _)) as [d Hd].
  rewrite Hd. cbn [mbind result_bind mret result_ret dom].
  destruct (Hbody d Hd) as (body & -> & Hdigits).
  cbn [mbind result_bind].
  destruct (weights_loop_succeeds body CATEGORIES ∅ Hdigits) as [weights ->].
  cbn [mbind result_bind].
  edestruct (build_loop_succeeds has_text w) as (res & -> & Hlen).
  { intros st Hst. split.
    - destruct (Hload (category_url st.1)) as [dc Hdc].
      { unfold fetched_urls. apply list_elem_of_further, elem_of_app. left.
        by apply (list_elem_of_fmap_2 (fun st => category_url st.1)). }
      exists dc. split; [done|]. by eapply Hblank.
    - apply Hload. unfold fetched_urls.
      apply list_elem_of_further, elem_of_app. right.
      by apply (list_elem_of_fmap_2 (fun st => cell_url st.1)). }
  by exists res.
Qed.

Lemma build_dataset_succeeds_witness :
  exists cats, build_dataset has_text_ci quiet_site = inr cats /\
               length cats = 7%nat.
Proof.
  apply (build_dataset_succeeds has_text_ci quiet_site).
  - intros u _. unfold quiet_site. destruct (includes "/cell/" u); eauto.
  - intros d [= <-]. exists "Planning 12 % weight". split; [reflexivity|].
    intros st digits Hst. unfold CATEGORIES in Hst.
    repeat (apply elem_of_cons in Hst as [->|Hst];
            [vm_compute; intros [= <-]; vm_compute; lia
            || (vm_compute; discriminate)|]).
    by apply elem_of_nil in Hst.
  - intros st d Hst. unfold CATEGORIES in Hst.
    repeat (apply elem_of_cons in Hst as [->|Hst];
            [intros [= <-]; repeat constructor|]).
    by apply elem_of_nil in Hst.
Defined.

Lemma weights_loop_raises (body : string) (cats : list (string * string))
  (m : gmap string (option Z)) (e : exn) :
  weights_loop body cats m = inl e ->
  e = ValueError /\
  exists st digits,
    st ∈ cats /\ Re.search_category_digits st.2 body = Some digits /\
    (Python.max_str_digits < String.length digits)%nat.
Proof.
  revert m. induction cats as [|[slug title] cats IH]; intros m; [done|].
  cbn [weights_loop].
  destruct (Re.search_category_digits title body) as [digits|] eqn:E.
  - unfold Python.int. case_decide as Hlen; cbn [mbind result_bind mret result_ret].
    + intros (-> & st & dg & Hst & Hdg)%IH. split; [done|].
      exists st, dg. split; [by apply list_elem_of_further|done].
    + intros [= <-]. split; [done|]. exists (slug, title), digits.
      split; [apply list_elem_of_here|]. split; [done|]. lia.
  - cbn [mbind result_bind].
    intros (-> & st & dg & Hst & Hdg)%IH. split; [done|].
    exists st, dg. split; [by apply list_elem_of_further|done].
Qed.

Lemma parse_category_page_raises (w : site) (slug : string) (e : exn) :
  parse_category_page w slug = inl e ->
  w (category_url slug) = inl e \/
  (e = TypeError /\
   exists d, w (category_url slug) = inr d /\
             ~ Forall blank_heading (by_tag "H2" (doc_dom d))).
Proof.
  unfold parse_category_page, goto, category_url.
  destruct (w (urljoin BASE ("categories/" +:+ slug))) as [e0|d].
  - cbn [mbind result_bind]. intros [= <-]. by left.
  - cbn [mbind result_bind mret result_ret dom]. rewrite parse_headers_result.
    case_decide; [done|]. intros [= <-]. right. split; [done|]. by exists d.
Qed.

Lemma scrape_subcategory_rubrics_raises (has_text : string -> node -> bool)
  (w : site) (slug : string) (subcats : list subcat) (e : exn) :
  scrape_subcategory_rubrics has_text w slug subcats = inl e ->
  w (cell_url slug) = inl e.
Proof.
  unfold scrape_subcategory_rubrics, goto, cell_url.
  destruct (w (urljoin BASE ("cell/xai/" +:+ slug))) as [e0|d]; [|done].
  cbn [mbind result_bind]. congruence.
Qed.

Lemma build_loop_failure_cause (has_text : string -> node -> bool) (w : site)
  (cat_weights : gmap string (option Z)) (cats : list (string * string))
  (out : list category) (e : exn) :
  build_loop has_text w cat_weights cats out = inl e ->
  exists st, st ∈ cats /\
    (w (category_url st.1) = inl e \/ w (cell_url st.1) = inl e \/
     (e = TypeError /\
      exists d, w (category_url st.1) = inr d /\
                ~ Forall blank_heading (by_tag "H2" (doc_dom d)))).
Proof.
  revert out. induction cats as [|[slug title] cats IH]; intros out;
    cbn [build_loop]; [done|].
  destruct (parse_category_page w slug) as [e1|subcats] eqn:Ep.
  - intros [= <-]. exists (slug, title). split; [apply list_elem_of_here|].
    apply parse_category_page_raises in Ep as [Hp|Hp]; [by left|by right; right].
  - cbn [mbind result_bind].
    destruct (scrape_subcategory_rubrics has_text w slug subcats)
      as [e2|rubrics] eqn:Es.
    + intros [= <-]. exists (slug, title). split; [apply list_elem_of_here|].
      right; left. by eapply scrape_subcategory_rubrics_raises.
    + cbn [mbind result_bind]. intros (st & Hst & Hw)%IH.
      exists st. split; [by apply list_elem_of_further|done].
Qed.

(** X14.  What [build_dataset] raises has one of four causes: a page the
    run loads failed and this is its exception; the overview page has no
    body and reading it timed out; a weight found on the overview page has
    more than 4300 digits and [int] raised [ValueError]; or a category
    page has an [h2] with text and the scores call raised [TypeError]. *)
Theorem build_dataset_failure_cause (has_text : string -> node -> bool)
  (w : site) (e : exn) :
  build_dataset has_text w = inl e ->
  (exists u, u ∈ fetched_urls /\ w u = inl e) \/
  (e = PWTimeout /\
   exists d, w (urljoin BASE "categories") = inr d /\
             by_tag "BODY" (doc_dom d) = []) \/
  (e = ValueError /\
   exists d body st digits,
     w (urljoin BASE "categories") = inr d /\
     body_text (doc_dom d) = inr body /\ st ∈ CATEGORIES /\
     Re.search_category_digits st.2 body = Some digits /\
     (Python.max_str_digits < String.length digits)%nat) \/
  (e = TypeError /\
   exists st d, st ∈ CATEGORIES /\ w (category_url st.1) = inr d /\
                ~ Forall blank_heading (by_tag "H2" (doc_dom d))).
Proof.
  unfold build_dataset, get_category_weights, goto.
  destruct (w (urljoin BASE "categories")) as [e0|d] eqn:Ew.
  { intros [= <-]. left. exists (urljoin BASE "categories").
    split; [apply list_elem_of_here|done]. }
  cbn [mbind result_bind mret result_ret dom].
  destruct (body_text (doc_dom d)) as [e1|body] eqn:Eb.
  { unfold body_text in Eb.
    destruct (by_tag "BODY" (doc_dom d)) as [|pn l] eqn:Et; [|done].
    injection Eb as <-. intros [= <-]. right; left. split; [done|]. by exists d. }
  cbn [mbind result_bind].
  destruct (weights_loop body CATEGORIES ∅) as [e2|weights] eqn:El.
  { apply weights_loop_raises in El as (-> & st & digits & Hst & Hdg & Hlen).
    intros [= <-]. right; right; left. split; [done|].
    by exists d, body, st, digits. }
  cbn [mbind result_bind].
  intros (st & Hst & Hw)%build_loop_failure_cause.
  destruct Hw as [Hw|[Hw|[-> (dc & Hdc & Hnb)]]].
  - left. exists (category_url st.1). split; [|done].
    apply list_elem_of_further, elem_of_app. left.
    by apply (list_elem_of_fmap_2 (fun st => category_url st.1)).
  - left. exists (cell_url st.1). split; [|done].
    apply list_elem_of_further, elem_of_app. right.
    by apply (list_elem_of_fmap_2 (fun st => cell_url st.1)).
  - right; right; right. split; [done|]. by exists st, dc.
Qed.

Lemma build_dataset_failure_cause_witness :
  build_dataset has_text_ci demo_site = inl TypeError /\
  exists st d, st ∈ CATEGORIES /\ demo_site (category_url st.1) = inr d /\
               ~ Forall blank_heading (by_tag "H2" (doc_dom d)).
Proof.
  assert (Hrun : build_dataset has_text_ci demo_site = inl TypeError)
    by (vm_compute; reflexivity).
  split; [exact Hrun|].
  destruct (build_dataset_failure_cause has_text_ci demo_site TypeError Hrun)
    as [(u & _ & Hu)|[[He _]|[[He _]|[_ H]]]].
  - unfold demo_site in Hu. by destruct (includes "/cell/" u).
  - discriminate He.
  - discriminate He.
  - exact H.
Defined.

(** ** The patterns recognise what they are written for *)

Lemma span_all_stop (p : ascii -> bool) (a b : string) :
  all p a = true ->
  match b with EmptyString => True | String c _ => p c = false end ->
  span p (a +:+ b) = (a, b).
Proof.
  intros Ha Hb. induction a as [|x a IH].
  - rewrite append_nil_l. destruct b as [|c b]; [done|]. cbn [span]. by rewrite Hb.
  - cbn [all] in Ha. apply andb_prop in Ha as [Hx Ha].
    rewrite append_cons. cbn [span]. by rewrite Hx, (IH Ha).
Qed.

Lemma digit_not_space (c : ascii) : is_digit c = true -> is_space_js c = false.
Proof. destruct c as [[] [] [] [] [] [] [] []]; by vm_compute. Qed.

Lemma space_not_digit (c : ascii) : is_space_js c = true -> is_digit c = false.
Proof. destruct c as [[] [] [] [] [] [] [] []]; by vm_compute. Qed.

Lemma lower_o_not_space (c : ascii) :
  to_lower_char c = "o"%char -> is_space_js c = false.
Proof. destruct c as [[] [] [] [] [] [] [] []]; by vm_compute. Qed.

Lemma search_percent_here (s : string) (v : Z) :
  Re.percent_at s = Some v -> Re.search_percent s = Some v.
Proof. intros H. destruct s; cbn [Re.search_percent]; by rewrite H. Qed.

Lemma search_weighted_here (s : string) (v : Z) :
  Re.weighted_at s = Some v -> Re.search_weighted s = Some v.
Proof. intros H. destruct s; cbn [Re.search_weighted]; by rewrite H. Qed.

Lemma strip_prefix_ci (lit x rest : string) :
  to_lower x = to_lower lit ->
  strip_prefix eq_ci lit (x +:+ rest) = Some rest.
Proof.
  revert x. induction lit as [|a lit IH]; intros [|b x]; try done.
  cbn [to_lower]. intros [= Hb Hx]. rewrite append_cons. cbn [strip_prefix].
  unfold eq_ci. rewrite Hb, Ascii.eqb_refl. by apply IH.
Qed.

Lemma strip_percent_sign (r : string) :
  strip_prefix Ascii.eqb "%" ("%" +:+ r) = Some r.
Proof. reflexivity. Qed.

(** X15.  A run of digits followed by optional whitespace and a percent
    sign, at the start of a text, is read as that number, whatever comes
    after the sign. *)
Theorem percent_phrase_parses (d ws rest : string) :
  d <> EmptyString ->
  all is_digit d = true ->
  all is_space_js ws = true ->
  Re.search_percent (d +:+ ws +:+ "%" +:+ rest) = Some (parseInt d).
Proof.
  intros Hd Hdig Hws. apply search_percent_here.
  unfold Re.percent_at, Re.digits1, drop_while.
  rewrite (span_all_stop is_digit d _ Hdig).
  2:{ destruct ws as [|c ws]; [done|]. rewrite append_cons.
      apply space_not_digit. cbn [all] in Hws. by apply andb_prop in Hws as [? _]. }
  destruct d as [|c d]; [done|]. cbn [mbind option_bind].
  by rewrite (span_all_stop is_space_js ws _ Hws).
Qed.

Lemma percent_phrase_parses_witness :
  Re.search_percent ("085" +:+ "  " +:+ "%" +:+ " of 100%") = Some 85%Z.
Proof.
  exact (percent_phrase_parses "085" "  " " of 100%"
           ltac:(discriminate) eq_refl eq_refl).
Defined.

(** X16.  The weight line is recognised in any letter case and with any
    non-empty whitespace between its parts: "weighted", whitespace, digits,
    a percent sign directly after the digits, whitespace, "of category" at
    the start of a text is read as the number the digits spell. *)
Theorem weight_phrase_parses (kw ws1 d ws2 cat rest : string) :
  to_lower kw = "weighted" ->
  ws1 <> EmptyString -> all is_space_js ws1 = true ->
  d <> EmptyString -> all is_digit d = true ->
  ws2 <> EmptyString -> all is_space_js ws2 = true ->
  to_lower cat = "of category" ->
  Re.search_weighted (kw +:+ ws1 +:+ d +:+ "%" +:+ ws2 +:+ cat +:+ rest)
  = Some (parseInt d).
Proof.
  intros Hkw Hws1 Hsp1 Hd Hdig Hws2 Hsp2 Hcat. apply search_weighted_here.
  unfold Re.weighted_at, Re.spaces1, Re.digits1.
  rewrite (strip_prefix_ci "Weighted" kw) by done. cbn [mbind option_bind].
  rewrite (span_all_stop is_space_js ws1 _ Hsp1).
  2:{ destruct d as [|c d]; [done|]. rewrite append_cons.
      apply digit_not_space. cbn [all] in Hdig. by apply andb_prop in Hdig as [? _]. }
  destruct ws1 as [|c1 ws1]; [done|]. cbn [mbind option_bind].
  rewrite (span_all_stop is_digit d _ Hdig) by done.
  destruct d as [|cd d]; [done|]. cbn [mbind option_bind].
  rewrite strip_percent_sign. cbn [mbind option_bind].
  rewrite (span_all_stop is_space_js ws2 _ Hsp2).
  2:{ destruct cat as [|c cat]; [done|]. rewrite append_cons.
      apply lower_o_not_space. cbn [to_lower] in Hcat. by injection Hcat. }
  destruct ws2 as [|c2 ws2]; [done|]. cbn [mbind option_bind].
  by rewrite (strip_prefix_ci "of category" cat).
Qed.

Lemma weight_phrase_parses_witness :
  Re.search_weighted
    ("WEIGHTED" +:+ " " +:+ "30" +:+ "%" +:+ "  " +:+ "Of Category" +:+ ".")
  = Some 30%Z.
Proof.
  exact (weight_phrase_parses "WEIGHTED" " " "30" "  " "Of Category" "."
           eq_refl ltac:(discriminate) eq_refl ltac:(discriminate) eq_refl
           ltac:(discriminate) eq_refl eq_refl).
Defined.

(** ** The driver of the patched scraper *)

(** X17.  The driver of ailabwatch_scraper_patched.py gives every
    configured category an entry, in the configured order, whatever
    [extract_category] does: the entry is what the extraction returned, and
    the empty dict when it raised, after which the later categories are
    still processed. *)
Theorem patched_main_entries (entry : Type)
  (extract_category : site -> string -> exn + list (string * entry))
  (w : site) :
  (Patched.main entry extract_category w).*1 = CATEGORIES.*2 /\
  forall slug cat_name, (slug, cat_name) ∈ CATEGORIES ->
    dict_get cat_name (Patched.main entry extract_category w) =
    Some (match extract_category w slug with inr r => r | inl _ => [] end).
Proof. apply patched_main_records_failure. Qed.

(** ** scraper-v3.py *)

(** X18.  In scraper-v3.py the scores dict of a subcategory holds exactly
    the companies whose label pair "Image: <company>" / "<digits>%" occurs
    in the block's text, in the configured order, each with the number
    found; a company without a label pair has no key at all, rather than a
    null or a zero. *)
Theorem v3_scores_only_found (joined : string) :
  (V3.official_scores joined).*1 =
    filter (fun c => is_Some (search_label_pair c joined)) COMPANIES /\
  forall comp,
    dict_get comp (V3.official_scores joined) =
    if decide (comp ∈ COMPANIES) then search_label_pair comp joined else None.
Proof.
  split; [apply (omap_keys (fun c => search_label_pair c joined))|].
  intros comp. apply (dict_get_omap (fun c => search_label_pair c joined)).
  apply (bool_decide_unpack (NoDup COMPANIES)). by vm_compute.
Qed.

Lemma weight_lookahead_window (foll : list (path * node)) (n k : nat) :
  V3.weight_lookahead (seq (S k) n) foll =
  first_some
    ((fun pn => V3.search_weighted (V3.norm_space (inner_text pn.2)))
       <$> take n (drop k foll)).
Proof.
  revert k. induction n as [|n IH]; intros k; [done|].
  cbn [seq V3.weight_lookahead]. rewrite Nat.sub_1_r. cbn [Nat.pred].
  destruct (foll !! k) as [pn|] eqn:E.
  - rewrite (drop_S _ _ _ E). cbn [take fmap list_fmap first_some].
    destruct (V3.search_weighted _); [done|]. apply IH.
  - rewrite IH. apply lookup_ge_None in E.
    rewrite !drop_ge by lia. by rewrite !take_nil.
Qed.

(** X19.  In scraper-v3.py the weight of a heading is the first match
    among the 11 elements that follow it in document order, children of
    following elements included and heading boundaries ignored; it is
    unknown when none of the 11 matches, and when fewer follow only those
    are examined. *)
Theorem v3_weight_window (root : node) (h : path) :
  V3.weight_near root h =
  first_some
    ((fun pn => V3.search_weighted (V3.norm_space (inner_text pn.2)))
       <$> take 11 (following root h)).
Proof.
  unfold V3.weight_near. by rewrite (weight_lookahead_window _ 11 0), drop_0.
Qed.

(** ** scraper-v6.py *)

Lemma v6_company_score_cases (region category_slug cslug : string) :
  match V6.company_score region category_slug cslug with
  | inr v => if_present (fun v => (0 <= v)%Z) v
  | inl e =>
      e = ValueError /\
      exists inner digits,
        V6.search_anchor ("/cell/" +:+ cslug +:+ "/" +:+ category_slug) region
          = Some inner /\
        V6.search_percent inner = Some digits /\
        (Python.max_str_digits < String.length digits)%nat
  end.
Proof.
  unfold V6.company_score.
  destruct (V6.search_anchor _ region) as [inner|]; [|done].
  destruct (V6.search_percent inner) as [digits|] eqn:E; [|done].
  unfold Python.int. case_decide as Hlen; cbn [mbind result_bind mret result_ret].
  - apply parseInt_nonneg.
  - split; [done|]. exists inner, digits. split; [done|]. split; [done|]. lia.
Qed.

Lemma v6_scores_loop_cases (region category_slug : string)
  (companies : list (string * string)) (acc : list (string * option Z)) :
  NoDup companies.*1 ->
  (forall c, c ∈ companies.*1 -> c ∉ acc.*1) ->
  Forall (fun kv => if_present (fun v => (0 <= v)%Z) kv.2) acc ->
  match V6.scores_loop region category_slug companies acc with
  | inr scores =>
      scores.*1 = acc.*1 ++ companies.*1 /\
      Forall (fun kv => if_present (fun v => (0 <= v)%Z) kv.2) scores
  | inl e =>
      e = ValueError /\
      exists company cslug inner digits,
        (company, cslug) ∈ companies /\
        V6.search_anchor ("/cell/" +:+ cslug +:+ "/" +:+ category_slug) region
          = Some inner /\
        V6.search_percent inner = Some digits /\
        (Python.max_str_digits < String.length digits)%nat
  end.
Proof.
  revert acc. induction companies as [|[company cslug] companies IH];
    intros acc Hnd Hfresh Hacc.
  - cbn [V6.scores_loop fmap list_fmap]. by rewrite app_nil_r.
  - cbn [V6.scores_loop]. cbn [fmap list_fmap fst] in Hnd, Hfresh.
    apply NoDup_cons in Hnd as [Hc Hnd].
    pose proof (v6_company_score_cases region category_slug cslug) as Hv.
    destruct (V6.company_score region category_slug cslug) as [e|v].
    + cbn [mbind result_bind]. destruct Hv as (-> & inner & digits & Hv).
      split; [done|]. exists company, cslug, inner, digits.
      split; [apply list_elem_of_here|done].
    + cbn [mbind result_bind].
      rewrite dict_set_fresh by (apply Hfresh, list_elem_of_here).
      specialize (IH (acc ++ [(company, v)]) Hnd).
      destruct (V6.scores_loop region category_slug companies
                  (acc ++ [(company, v)])) as [e|scores].
      * destruct IH as (-> & c & cs & inner & digits & Hin & Hrest).
        -- intros c Hin. rewrite fmap_app. cbn [fmap list_fmap fst].
           intros [Ha|Ha%list_elem_of_singleton]%elem_of_app.
           ++ revert Ha. apply Hfresh. by apply list_elem_of_further.
           ++ congruence.
        -- apply Forall_app. split; [done|]. by apply Forall_singleton.
        -- split; [done|]. exists c, cs, inner, digits.
           split; [by apply list_elem_of_further|done].
      * destruct IH as [Hkeys Hall].
        -- intros c Hin. rewrite fmap_app. cbn [fmap list_fmap fst].
           intros [Ha|Ha%list_elem_of_singleton]%elem_of_app.
           ++ revert Ha. apply Hfresh. by apply list_elem_of_further.
           ++ congruence.
        -- apply Forall_app. split; [done|]. by apply Forall_singleton.
        -- split; [|done]. rewrite Hkeys, fmap_app, <- app_assoc. done.
Qed.

(** X20.  In scraper-v6.py the scores of a region, when the function
    returns, have one entry per configured company, in the configured
    order, each the unknown value or a number that is not negative.  The
    function raises only [ValueError], and only when the percentage in the
    first anchor of some company has more than 4300 digits. *)
Theorem v6_scores_shape (region_html category_slug : string) :
  match V6.extract_scores_from_region_html region_html category_slug with
  | inr scores =>
      scores.*1 = COMPANIES /\
      Forall (fun kv => if_present (fun v => (0 <= v)%Z) kv.2) scores
  | inl e =>
      e = ValueError /\
      exists company cslug inner digits,
        (company, cslug) ∈ COMPANY_SLUG /\
        V6.search_anchor ("/cell/" +:+ cslug +:+ "/" +:+ category_slug)
          (V6.collapse_spaces region_html) = Some inner /\
        V6.search_percent inner = Some digits /\
        (Python.max_str_digits < String.length digits)%nat
  end.
Proof.
  unfold V6.extract_scores_from_region_html.
  apply (v6_scores_loop_cases (V6.collapse_spaces region_html) category_slug
           COMPANY_SLUG []).
  - apply (bool_decide_unpack (NoDup COMPANY_SLUG.*1)). by vm_compute.
  - intros c _. apply not_elem_of_nil.
  - constructor.
Qed.

Lemma collapse_idempotent (s : string) :
  V6.collapse_from true (V6.collapse_from true s) = V6.collapse_from true s /\
  V6.collapse_from false (V6.collapse_from false s) = V6.collapse_from false s.
Proof.
  induction s as [|c s [IHt IHf]]; [done|]. cbn [V6.collapse_from].
  destruct (is_space_py c) eqn:Ec.
  - split; [exact IHt|]. cbn [V6.collapse_from].
    change (is_space_py " ") with true. cbv iota. by rewrite IHt.
  - cbn [V6.collapse_from]. rewrite Ec. by rewrite IHf.
Qed.

(** X21.  The scores of scraper-v6.py depend on the HTML of the region only
    up to runs of whitespace: collapsing the whitespace beforehand changes
    nothing. *)
Theorem v6_scores_whitespace (region_html category_slug : string) :
  V6.extract_scores_from_region_html (V6.collapse_spaces region_html)
    category_slug =
  V6.extract_scores_from_region_html region_html category_slug.
Proof.
  unfold V6.extract_scores_from_region_html, V6.collapse_spaces.
  by rewrite (proj2 (collapse_idempotent region_html)).
Qed.
